(** * QuickModel: the ensembler quick-modelling driver

    A shallow embedding of [ensembler/tools/quick_model.py].

    The class [QuickModel] does all of its work in [__init__]: it checks
    its arguments, resolves a target id and a list of template ids, and
    then calls, in a fixed order, the modelling and refinement functions
    of the [ensembler] package.  Those functions live outside the file;
    they are taken here as a record of collaborators acting on an
    abstract project directory.  Every call to a collaborator, every
    line printed, every prompt and every warning is recorded as an
    event, so that the order of calls can be stated.  A collaborator may
    raise: the exception then propagates out of [__init__], as in
    Python. *)

From Stdlib Require Import List String Ascii ZArith Bool Floats Lia.
From Stdlib Require Import DecimalString.
Import ListNotations.
Open Scope string_scope.

(** ** Python values *)

Module Py.

(** Exceptions the driver can meet.  [Exception msg] is what the file
    itself raises ([raise Exception('...')]); the named ones come from
    builtins ([targets[0]], [float(...)], [open(...)], [raw_input],
    [os.path.join]); [Other] stands for whatever else a collaborator
    raises. *)
Inductive exn : Type :=
| Exception (msg : string)
| IndexError
| ValueError
| IOError
| EOFError
| AttributeError
| Other (what : string).

Inductive result (A : Type) : Type :=
| Ok (a : A)
| Raise (e : exn).
Arguments Ok {A} a.
Arguments Raise {A} e.

(** Truthiness, as tested by [if x], [not x], [x and y], [x or y]. *)
Class Truthy (A : Type) := truthy : A -> bool.

#[export] Instance truthy_bool : Truthy bool := fun b => b.
#[export] Instance truthy_str : Truthy string :=
  fun s => match s with EmptyString => false | String _ _ => true end.
#[export] Instance truthy_list {A} : Truthy (list A) :=
  fun l => match l with [] => false | _ :: _ => true end.
#[export] Instance truthy_int : Truthy Z := fun z => negb (Z.eqb z 0).
(** An optional argument is [None] or a value; [None] is falsy. *)
#[export] Instance truthy_option {A} `{Truthy A} : Truthy (option A) :=
  fun o => match o with None => false | Some a => truthy a end.

(** [seq[0]] *)
Definition item0 {A} (l : list A) : result A :=
  match l with [] => Raise IndexError | x :: _ => Ok x end.

(** [seq[1]] *)
Definition item1 {A} (l : list A) : result A :=
  match l with _ :: x :: _ => Ok x | _ => Raise IndexError end.

(** [range(start, stop, step)] for a positive step; [fuel] bounds the
    number of elements. *)
Fixpoint range_from (fuel : nat) (start stop step : Z) : list Z :=
  match fuel with
  | O => []
  | S fuel' =>
      if (start <? stop)%Z
      then start :: range_from fuel' (start + step) stop step
      else []
  end.

Definition range (start stop step : Z) : list Z :=
  range_from (Z.to_nat (stop - start)) start stop step.

(** ['%d' % n] *)
Definition fmt_d (n : Z) : string := NilZero.string_of_int (Z.to_int n).

(** [int -> float], as done when an int is compared with a float64
    column.  Only used on [range(0, 101, 10)]. *)
Definition float_of_int (n : Z) : float := PrimFloat.of_uint63 (Uint63.of_Z n).

(** [a > b] on floats: IEEE 754, false as soon as one side is NaN. *)
Definition float_gt (a b : float) : bool := PrimFloat.ltb b a.

(** [os.path.join] on POSIX. *)
Definition ends_with_slash (s : string) : bool :=
  match get (String.length s - 1) s with
  | Some c => Ascii.eqb c "/"
  | None => false
  end.

Definition path_join2 (a b : string) : string :=
  match b with
  | String "/" _ => b
  | _ => if orb (String.eqb a "") (ends_with_slash a) then a ++ b
         else a ++ "/" ++ b
  end.

Definition path_join (parts : list string) : string :=
  match parts with
  | [] => ""
  | p :: ps => fold_left path_join2 ps p
  end.

(** [str.lower] on a byte string: ASCII letters only. *)
Definition lower_ascii (c : ascii) : ascii :=
  let n := nat_of_ascii c in
  if andb (65 <=? n)%nat (n <=? 90)%nat then ascii_of_nat (n + 32) else c.

Fixpoint lower (s : string) : string :=
  match s with
  | EmptyString => EmptyString
  | String c s' => String (lower_ascii c) (lower s')
  end.

(** [str.split()] with no argument: split on runs of white space, no
    empty pieces. *)
Definition is_space (c : ascii) : bool :=
  let n := nat_of_ascii c in
  orb (andb (9 <=? n)%nat (n <=? 13)%nat) (n =? 32)%nat.

Fixpoint split_go (cur : string) (s : string) : list string :=
  match s with
  | EmptyString => match cur with EmptyString => [] | _ => [cur] end
  | String c s' =>
      if is_space c
      then match cur with
           | EmptyString => split_go EmptyString s'
           | _ => cur :: split_go EmptyString s'
           end
      else split_go (cur ++ String c EmptyString) s'
  end.

Definition split (s : string) : list string := split_go EmptyString s.

(** ['%s' % x] for a string or [None] *)
Definition fmt_s (x : option string) : string :=
  match x with Some s => s | None => "None" end.

(** [x in l] for strings *)
Definition str_in (x : string) (l : list string) : bool :=
  existsb (String.eqb x) l.

End Py.
Import Py.

(** ** pandas, as far as the driver uses it *)

Module pd.

(** [pd.DataFrame({'templateids': ..., 'seqids': ...})]: two columns of
    the same length, rows in the order of the lists. *)
Record DataFrame : Type := {
  col_templateids : list string;
  col_seqids : list float
}.

(** [df.seqids > cutoff]: a column of booleans. *)
Definition seqids_gt (df : DataFrame) (cutoff : float) : list bool :=
  map (fun s => float_gt s cutoff) (col_seqids df).

(** Rows of a column kept by a boolean mask. *)
Fixpoint keep {A} (mask : list bool) (col : list A) : list A :=
  match mask, col with
  | b :: mask', x :: col' => if b then x :: keep mask' col' else keep mask' col'
  | _, _ => []
  end.

(** [df[mask]] *)
Definition getitem (df : DataFrame) (mask : list bool) : DataFrame :=
  {| col_templateids := keep mask (col_templateids df);
     col_seqids := keep mask (col_seqids df) |}.

(** [len(df)]: the number of rows. *)
Definition len (df : DataFrame) : nat := List.length (col_seqids df).

End pd.

(** ** The project, the collaborators and the events *)

(** Targets and templates are objects with an [id]. *)
Record SeqRecord : Type := { id : string; seq : string }.

(** [simtk.unit]: a duration. *)
Inductive quantity : Type := picoseconds (n : Z).

(** The functions of the [ensembler] package called for their effect,
    with the arguments the driver passes, and the console. *)
Module ensembler.

Inductive Event : Type :=
| InitProject (project_toplevel_dir : string)
| GatherTargetsFromUniProt (uniprot_query_string : string)
    (uniprot_domain_regex : option string)
| gather_templates_from_pdb (pdbids : option (list string))
    (uniprot_domain_regex : option string)
    (chainids : option (list (string * list string)))
    (structure_dirs : option (list string))
| gather_templates_from_uniprot (uniprot_query_string : option string)
    (uniprot_domain_regex : option string)
    (structure_dirs : option (list string))
| align_targets_and_templates (process_only_these_targets : option string)
    (process_only_these_templates : option (list string))
| model_template_loops (process_only_these_templates : option (list string))
| build_models (process_only_these_targets : option string)
    (process_only_these_templates : option (list string))
| cluster_models (process_only_these_targets : option string)
| refine_implicit_md (process_only_these_targets : option string)
    (process_only_these_templates : option (list string))
    (sim_length : quantity)
| solvate_models (process_only_these_targets : option string)
    (process_only_these_templates : option (list string))
| determine_nwaters (process_only_these_targets : option string)
    (process_only_these_templates : option (list string))
| refine_explicit_md (process_only_these_targets : option string)
    (process_only_these_templates : option (list string))
    (sim_length : quantity)
| package_for_fah (process_only_these_targets : option string)
    (nclones : option Z)
| warn (message : string)
| print (line : string)
| raw_input (prompt : string).

End ensembler.

Abbreviation Event := ensembler.Event.

(** What lies outside the file.  [Project] is the state of the project
    directory (and of whatever the collaborators talk to). *)
Record Collaborators : Type := {
  Project : Type;
  (** [ensembler.core.check_project_toplevel_dir(raise_exception=False)] *)
  check_project_toplevel_dir : Project -> bool;
  (** the effect of a call on the project, or the exception it raises *)
  exec : Event -> Project -> result Project;
  (** [.targets] of the object [GatherTargetsFromUniProt(...)] returns *)
  gathered_targets : Project -> list SeqRecord;
  (** [os.path.exists] *)
  path_exists : string -> Project -> bool;
  (** [ensembler.core.get_templates_resolved_seq()] *)
  get_templates_resolved_seq : Project -> result (list SeqRecord);
  (** [open(path).readlines()] *)
  readlines : string -> Project -> result (list string);
  (** the builtin [float(str)]; [ValueError] when it does not parse *)
  float_of_str : string -> option float;
  (** ['%.1f' % x] *)
  fmt_1f : float -> string;
  (** [ensembler.core.default_project_dirnames.templates] and [.models] *)
  dirnames_templates : string;
  dirnames_models : string
}.

(** ** The object *)

Record QuickModel : Type := {
  targetid : option string;
  templateids : option (list string);
  target_uniprot_entry_name : option string;
  uniprot_domain_regex : option string;
  pdbids : option (list string);
  chainids : option (list (string * list string));
  template_uniprot_query : option string;
  model_seqid_cutoff : option float;
  loopmodel : bool;
  package_for_fah : bool;
  nfahclones : option Z;
  structure_dirs : option (list string);
  sim_length : quantity
}.

(** [self.targetid = v] *)
Definition set_targetid (self : QuickModel) (v : option string) : QuickModel :=
  {| targetid := v;
     templateids := templateids self;
     target_uniprot_entry_name := target_uniprot_entry_name self;
     uniprot_domain_regex := uniprot_domain_regex self;
     pdbids := pdbids self;
     chainids := chainids self;
     template_uniprot_query := template_uniprot_query self;
     model_seqid_cutoff := model_seqid_cutoff self;
     loopmodel := loopmodel self;
     package_for_fah := package_for_fah self;
     nfahclones := nfahclones self;
     structure_dirs := structure_dirs self;
     sim_length := sim_length self |}.

(** [self.templateids = v] *)
Definition set_templateids (self : QuickModel) (v : option (list string))
  : QuickModel :=
  {| targetid := targetid self;
     templateids := v;
     target_uniprot_entry_name := target_uniprot_entry_name self;
     uniprot_domain_regex := uniprot_domain_regex self;
     pdbids := pdbids self;
     chainids := chainids self;
     template_uniprot_query := template_uniprot_query self;
     model_seqid_cutoff := model_seqid_cutoff self;
     loopmodel := loopmodel self;
     package_for_fah := package_for_fah self;
     nfahclones := nfahclones self;
     structure_dirs := structure_dirs self;
     sim_length := sim_length self |}.

(** The defaults of the signature of [__init__]. *)
Definition defaults : QuickModel :=
  {| targetid := None; templateids := None;
     target_uniprot_entry_name := None; uniprot_domain_regex := None;
     pdbids := None; chainids := None; template_uniprot_query := None;
     model_seqid_cutoff := None; loopmodel := true;
     package_for_fah := false; nfahclones := None;
     structure_dirs := None; sim_length := picoseconds 100 |}.

(** ** Running the driver: state, exceptions and the record of events *)

Section Driver.

Variable E : Collaborators.

(** The world the constructor runs in: the project and the lines still
    to be typed at the console. *)
Record World : Type := {
  project : Project E;
  stdin : list string
}.

(** A computation returns a value or raises, leaves a world, and has
    emitted events, oldest first. *)
Definition M (A : Type) : Type := World -> result A * World * list Event.

Definition ret {A} (a : A) : M A := fun w => (Ok a, w, []).

Definition raise {A} (e : exn) : M A := fun w => (Raise e, w, []).

Definition bind {A B} (c : M A) (k : A -> M B) : M B :=
  fun w =>
    match c w with
    | (Ok a, w1, ev1) =>
        match k a w1 with
        | (r, w2, ev2) => (r, w2, (ev1 ++ ev2)%list)
        end
    | (Raise e, w1, ev1) => (Raise e, w1, ev1)
    end.

Notation "x <- c ;; k" := (bind c (fun x => k))
  (at level 61, c at next level, right associativity).
Notation "c ;; k" := (bind c (fun _ => k))
  (at level 61, right associativity).

(** A result of a builtin, raised if it is an exception. *)
Definition lift {A} (r : result A) : M A := fun w => (r, w, []).

(** Reading the project. *)
Definition ask {A} (f : Project E -> A) : M A :=
  fun w => (Ok (f (project w)), w, []).

Definition query {A} (f : Project E -> result A) : M A :=
  fun w => (f (project w), w, []).

(** Calling a collaborator for its effect.  The call is recorded
    whether it returns or raises. *)
Definition call (e : Event) : M unit :=
  fun w =>
    match exec E e (project w) with
    | Ok p => (Ok tt, {| project := p; stdin := stdin w |}, [e])
    | Raise x => (Raise x, w, [e])
    end.

(** [print] and [warnings.warn] *)
Definition say (e : Event) : M unit := fun w => (Ok tt, w, [e]).

(** [raw_input(prompt)]: writes the prompt and reads one line. *)
Definition input (prompt : string) : M string :=
  fun w =>
    match stdin w with
    | [] => (Raise EOFError, w, [ensembler.raw_input prompt])
    | l :: rest =>
        (Ok l, {| project := project w; stdin := rest |},
         [ensembler.raw_input prompt])
    end.

(** [[f(x) for x in l]], stopping at the first exception. *)
Fixpoint comprehension {A B} (f : A -> result B) (l : list A)
  : result (list B) :=
  match l with
  | [] => Ok []
  | x :: l' =>
      match f x with
      | Raise e => Raise e
      | Ok y =>
          match comprehension f l' with
          | Raise e => Raise e
          | Ok ys => Ok (y :: ys)
          end
      end
  end.

(** [float(s)] *)
Definition float (s : string) : result PrimFloat.float :=
  match float_of_str E s with
  | Some x => Ok x
  | None => Raise ValueError
  end.

(** ** The methods of [QuickModel] *)

(** Lines 97-98. *)
Definition _align_all_templates (targetid : option string) : M unit :=
  call (ensembler.align_targets_and_templates targetid None).

(** Lines 107-115: the report, one row per line, as a data frame. *)
Definition read_seqids (lines : list string) : result pd.DataFrame :=
  let seqids_list := map split lines in
  match comprehension item0 seqids_list with
  | Raise e => Raise e
  | Ok templateids =>
      match comprehension
              (fun i => match item1 i with
                        | Raise e => Raise e
                        | Ok x => float x
                        end) seqids_list with
      | Raise e => Raise e
      | Ok seqids =>
          Ok {| pd.col_templateids := templateids; pd.col_seqids := seqids |}
      end
  end.

(** Lines 118-120: one line per cutoff of [range(0, 101, 10)]. *)
Definition histogram_line (df : pd.DataFrame) (cutoff : Z) : Event :=
  let ntemplates := pd.len (pd.getitem df (pd.seqids_gt df (float_of_int cutoff))) in
  ensembler.print ("Number of templates with seqid > " ++ fmt_d cutoff
                   ++ ": " ++ fmt_d (Z.of_nat ntemplates)).

Fixpoint for_each {A} (body : A -> M unit) (l : list A) : M unit :=
  match l with
  | [] => ret tt
  | x :: l' => body x ;; for_each body l'
  end.

Definition prompt_cutoff (targetid : string) : string :=
  "Choose a sequence identity cutoff for target " ++ targetid
  ++ " (confirm at next step): ".

Definition prompt_confirm : string := "Use this sequence identity cutoff? (y|N): ".

Definition chosen_line (df : pd.DataFrame) (seqid_cutoff : PrimFloat.float) : Event :=
  let ntemplates := pd.len (pd.getitem df (pd.seqids_gt df seqid_cutoff)) in
  ensembler.print ("Number of templates chosen by sequence identity cutoff ("
                   ++ fmt_1f E seqid_cutoff ++ "): "
                   ++ fmt_d (Z.of_nat ntemplates)).

(** Lines 122-129: the [while not seqid_cutoff_chosen] loop.  Every turn
    reads two lines from the console, so the loop is written by
    recursion on the lines still to be read; when they run out,
    [raw_input] raises [EOFError].  Returns the cutoff, the lines left
    and the events. *)
Fixpoint choose_cutoff (df : pd.DataFrame) (targetid : string)
    (lines : list string) : result PrimFloat.float * list string * list Event :=
  match lines with
  | [] => (Raise EOFError, [], [ensembler.raw_input (prompt_cutoff targetid)])
  | answer :: lines1 =>
      match float answer with
      | Raise e =>
          (Raise e, lines1, [ensembler.raw_input (prompt_cutoff targetid)])
      | Ok seqid_cutoff =>
          let turn := [ensembler.raw_input (prompt_cutoff targetid);
                       chosen_line df seqid_cutoff;
                       ensembler.raw_input prompt_confirm] in
          match lines1 with
          | [] => (Raise EOFError, [], turn)
          | confirm_seqid_cutoff :: lines2 =>
              if str_in (lower confirm_seqid_cutoff) ["y"; "yes"]
              then (Ok seqid_cutoff, lines2, turn)
              else
                match choose_cutoff df targetid lines2 with
                | (r, rest, evs) => (r, rest, (turn ++ evs)%list)
                end
          end
      end
  end.

Definition while_not_chosen (df : pd.DataFrame) (targetid : string)
  : M PrimFloat.float :=
  fun w =>
    match choose_cutoff df targetid (stdin w) with
    | (r, rest, evs) => (r, {| project := project w; stdin := rest |}, evs)
    end.

(** Lines 100-134. *)
Definition _select_templates_based_on_seqid_cutoff
    (targetid : option string) (seqid_cutoff : option PrimFloat.float)
  : M (list string) :=
  match targetid with
  | None => raise AttributeError   (* [os.path.join] on [None] *)
  | Some tid =>
      let seqid_filepath :=
        path_join [dirnames_models E; tid; "sequence-identities.txt"] in
      lines <- query (readlines E seqid_filepath) ;;
      df <- lift (read_seqids lines) ;;
      seqid_cutoff <-
        match seqid_cutoff with
        | None =>      (* [if seqid_cutoff is None:] *)
            for_each (fun cutoff => say (histogram_line df cutoff))
                     (range 0 101 10) ;;
            while_not_chosen df tid
        | Some c => ret c
        end ;;
      let selected_templates := pd.getitem df (pd.seqids_gt df seqid_cutoff) in
      let templateids := pd.col_templateids selected_templates in
      ret templateids
  end.

(** Lines 136-149. *)
Definition _model (self : QuickModel) (targetid : option string)
    (templateids : option (list string)) (loopmodel package_for_fah : bool)
    (nfahclones : option Z) : M unit :=
  (if truthy loopmodel
   then call (ensembler.model_template_loops templateids)
   else ret tt) ;;
  call (ensembler.align_targets_and_templates targetid templateids) ;;
  call (ensembler.build_models targetid templateids) ;;
  call (ensembler.cluster_models targetid) ;;
  call (ensembler.refine_implicit_md targetid templateids (sim_length self)) ;;
  call (ensembler.solvate_models targetid templateids) ;;
  call (ensembler.determine_nwaters targetid templateids) ;;
  call (ensembler.refine_explicit_md targetid templateids (sim_length self)) ;;
  if truthy package_for_fah
  then
    let nfahclones :=
      if negb (truthy nfahclones) then Some 1%Z else nfahclones in
    call (ensembler.package_for_fah targetid nfahclones)
  else ret tt.

(** Lines 50-51. *)
Definition ensure_project : M unit :=
  toplevel <- ask (check_project_toplevel_dir E) ;;
  if negb toplevel then call (ensembler.InitProject ".") else ret tt.

(** Lines 53-54. *)
Definition check_target_arguments (self : QuickModel) : M unit :=
  if orb (andb (negb (truthy (targetid self)))
               (negb (truthy (target_uniprot_entry_name self))))
         (andb (truthy (targetid self))
               (truthy (target_uniprot_entry_name self)))
  then raise (Exception
                "Must specify either targetid or target_uniprot_entry_name.")
  else ret tt.

(** Lines 56-66. *)
Definition resolve_targetid (self : QuickModel) : M QuickModel :=
  if negb (truthy (targetid self))
  then
    if orb (negb (truthy (target_uniprot_entry_name self)))
           (negb (truthy (uniprot_domain_regex self)))
    then raise (Exception
                  ("If no targetid is passed, must specify target_uniprot_entry_name and "
                   ++ "uniprot_domain_regex."))
    else
      let uniprot_query_string :=
        "mnemonic:" ++ fmt_s (target_uniprot_entry_name self) in
      call (ensembler.GatherTargetsFromUniProt uniprot_query_string
              (uniprot_domain_regex self)) ;;
      targets <- ask (gathered_targets E) ;;
      first <- lift (item0 targets) ;;
      ret (set_targetid self (Some (id first)))
  else ret self.

(** Lines 68-72. *)
Definition find_existing_templates : M bool :=
  there <- ask (path_exists E
                  (path_join [dirnames_templates E; "templates-resolved-seq.fa"])) ;;
  if there
  then
    all_templates_resolved_seq <- query (get_templates_resolved_seq E) ;;
    if (0 <? List.length all_templates_resolved_seq)%nat
    then ret true
    else ret false
  else ret false.

(** Lines 74-89. *)
Definition resolve_templateids (self : QuickModel) (existing_templates : bool)
  : M QuickModel :=
  if truthy (templateids self)
  then
    if negb existing_templates
    then raise (Exception "No existing templates found.")
    else ret self
  else if truthy (pdbids self)
  then
    call (ensembler.gather_templates_from_pdb (pdbids self)
            (uniprot_domain_regex self) (chainids self) (structure_dirs self)) ;;
    templates_resolved_seq <- query (get_templates_resolved_seq E) ;;
    ret (set_templateids self (Some (map id templates_resolved_seq)))
  else if truthy (template_uniprot_query self)
  then
    call (ensembler.gather_templates_from_uniprot (template_uniprot_query self)
            (uniprot_domain_regex self) (structure_dirs self)) ;;
    _align_all_templates (targetid self) ;;
    selected <- _select_templates_based_on_seqid_cutoff (targetid self)
                  (model_seqid_cutoff self) ;;
    ret (set_templateids self (Some selected))
  else
    if negb existing_templates
    then raise (Exception "No existing templates found.")
    else
      _align_all_templates (targetid self) ;;
      selected <- _select_templates_based_on_seqid_cutoff (targetid self)
                    (model_seqid_cutoff self) ;;
      ret (set_templateids self (Some selected)).

(** Lines 50-89: everything up to the point where [self.targetid] and
    [self.templateids] have their final values. *)
Definition resolve (self : QuickModel) : M QuickModel :=
  ensure_project ;;
  check_target_arguments self ;;
  self <- resolve_targetid self ;;
  existing_templates <- find_existing_templates ;;
  resolve_templateids self existing_templates.

(** [len(self.templateids) == 0] *)
Definition len_is_0 (l : option (list string)) : bool :=
  match l with Some l => (List.length l =? 0)%nat | None => false end.

(** Lines 91-95. *)
Definition model_or_exit (self : QuickModel) : M unit :=
  if orb (negb (truthy (templateids self))) (len_is_0 (templateids self))
  then say (ensembler.warn "No templates found. Exiting.")
  else _model self (targetid self) (templateids self) (loopmodel self)
         (package_for_fah self) (nfahclones self).

(** Lines 36-95.  The value is the object as the constructor leaves it. *)
Definition __init__ (self : QuickModel) : M QuickModel :=
  self <- resolve self ;;
  model_or_exit self ;;
  ret self.

End Driver.

Arguments ret {E A} a.
Arguments raise {E A} e.
Arguments bind {E A B} c k.

Notation "x <- c ;; k" := (bind c (fun x => k))
  (at level 61, c at next level, right associativity).
Notation "c ;; k" := (bind c (fun _ => k))
  (at level 61, right associativity).

(** ** What the report says, in the words of the specification *)

(** The rows of the report: (template id, identity percentage). *)
Definition rows (df : pd.DataFrame) : list (string * PrimFloat.float) :=
  combine (pd.col_templateids df) (pd.col_seqids df).

(** The identifiers of the rows whose percentage strictly exceeds the
    threshold, in the order of the rows. *)
Definition ids_above (threshold : PrimFloat.float)
    (report : list (string * PrimFloat.float)) : list string :=
  map fst (filter (fun row => PrimFloat.ltb threshold (snd row)) report).

(** The number of such rows. *)
Definition count_above (threshold : PrimFloat.float)
    (report : list (string * PrimFloat.float)) : nat :=
  List.length (ids_above threshold report).

(** The data frame that holds a report. *)
Definition frame (report : list (string * PrimFloat.float)) : pd.DataFrame :=
  {| pd.col_templateids := map fst report; pd.col_seqids := map snd report |}.

(** A line of the file carries a row: its first two fields are the id
    and a text that [float] reads as the percentage. *)
Definition line_is_row (E : Collaborators) (line : string)
    (row : string * PrimFloat.float) : Prop :=
  exists (field : string) (more : list string),
    split line = fst row :: field :: more
    /\ float_of_str E field = Some (snd row).

(** The answers that confirm a cutoff. *)
Definition affirmative (answer : string) : bool :=
  str_in (lower answer) ["y"; "yes"].

(** One turn at the console: the text typed for the cutoff, the number
    [float] reads in it, and the text typed at the confirmation. *)
Record turn : Type := {
  typed : string;
  value : PrimFloat.float;
  answer : string
}.

Definition turn_lines (t : turn) : list string := [typed t; answer t].

(** What one turn shows: the prompt, the count for the cutoff typed, the
    request for confirmation. *)
Definition turn_events (E : Collaborators) (tid : string)
    (report : list (string * PrimFloat.float)) (t : turn) : list Event :=
  [ensembler.raw_input (prompt_cutoff tid);
   ensembler.print ("Number of templates chosen by sequence identity cutoff ("
                    ++ fmt_1f E (value t) ++ "): "
                    ++ fmt_d (Z.of_nat (count_above (value t) report)));
   ensembler.raw_input prompt_confirm].

(** The histogram: one line per cutoff 0, 10, ..., 100. *)
Definition histogram (report : list (string * PrimFloat.float)) : list Event :=
  map (fun cutoff =>
         ensembler.print ("Number of templates with seqid > " ++ fmt_d cutoff
                          ++ ": "
                          ++ fmt_d (Z.of_nat (count_above (float_of_int cutoff) report))))
      [0; 10; 20; 30; 40; 50; 60; 70; 80; 90; 100]%Z.

(** The calls of the modelling and refinement sequence, in the order of
    the specification: loop modelling if enabled, alignment, building,
    clustering, implicit refinement, solvation, solvent count, explicit
    refinement, packaging if requested.  The arguments are those the
    code passes. *)
Definition modeling_sequence (self : QuickModel) (targetid : option string)
    (templateids : option (list string)) (loopmodel package_for_fah : bool)
    (nfahclones : option Z) : list Event :=
  ((if loopmodel then [ensembler.model_template_loops templateids] else [])
   ++ [ensembler.align_targets_and_templates targetid templateids;
       ensembler.build_models targetid templateids;
       ensembler.cluster_models targetid;
       ensembler.refine_implicit_md targetid templateids (sim_length self);
       ensembler.solvate_models targetid templateids;
       ensembler.determine_nwaters targetid templateids;
       ensembler.refine_explicit_md targetid templateids (sim_length self)]
   ++ (if package_for_fah
       then [ensembler.package_for_fah targetid
               (if negb (truthy nfahclones) then Some 1%Z else nfahclones)]
       else []))%list.

(** The calls that belong to the modelling and refinement sequence.  The
    alignment of the sequence names its templates; the alignment against
    all templates, done while templates are being resolved, does not. *)
Definition modeling_call (e : Event) : bool :=
  match e with
  | ensembler.model_template_loops _
  | ensembler.align_targets_and_templates _ (Some _)
  | ensembler.build_models _ _
  | ensembler.cluster_models _
  | ensembler.refine_implicit_md _ _ _
  | ensembler.solvate_models _ _
  | ensembler.determine_nwaters _ _
  | ensembler.refine_explicit_md _ _ _
  | ensembler.package_for_fah _ _ => true
  | _ => false
  end.

(** An event that is not a call of the modelling sequence. *)
Abbreviation quiet := (fun e : Event => modeling_call e = false).

Definition packaging_call (e : Event) : bool :=
  match e with
  | ensembler.package_for_fah _ _ => true
  | _ => false
  end.

(** The four ways of resolving the templates, and the one the inputs
    select: the first of template ids, structure-source ids and query
    that is given and not empty, the fallback when none is. *)
Inductive path : Type :=
| explicit_ids
| structure_sources
| discovery_query
| fallback.

Definition chosen_path (self : QuickModel) : path :=
  match templateids self, pdbids self, template_uniprot_query self with
  | Some (_ :: _), _, _ => explicit_ids
  | _, Some (_ :: _), _ => structure_sources
  | _, _, Some (String _ _) => discovery_query
  | _, _, _ => fallback
  end.

(** What is written to and read from the console. *)
Definition console_event (e : Event) : bool :=
  match e with
  | ensembler.print _ | ensembler.raw_input _ => true
  | _ => false
  end.

(** One list is the beginning of another. *)
Definition prefix_of {A} (l1 l2 : list A) : Prop :=
  exists rest, l2 = (l1 ++ rest)%list.

(** Every value a computation returns satisfies [Q], whatever the world. *)
Definition returns (E : Collaborators) {A} (Q : A -> Prop) (c : M E A) : Prop :=
  forall w a w' evs, c w = (Ok a, w', evs) -> Q a.

(** Two objects that differ at most in [targetid] and [templateids]. *)
Definition same_options (self self' : QuickModel) : Prop :=
  set_targetid (set_templateids self' (templateids self)) (targetid self) = self.

(** Every event a computation emits satisfies [P], whatever the world. *)
Definition emits (E : Collaborators) {A} (P : Event -> Prop) (c : M E A) : Prop :=
  forall w r w' evs, c w = (r, w', evs) -> Forall P evs.

(** ** A mock project, for running the driver on concrete inputs *)

Module Mock.

Record dir : Type := {
  toplevel : bool;                 (* is the directory a project? *)
  uniprot_targets : list SeqRecord; (* what target discovery finds *)
  templates_fa : option (list SeqRecord);
                                   (* templates-resolved-seq.fa, if there *)
  report : option (list string)    (* sequence-identities.txt, if there *)
}.

Definition template_of_pdbid (pdbid : string) : SeqRecord :=
  {| id := pdbid ++ "_A"; seq := "" |}.

(** Gathering templates from PDB ids writes one template per id; the
    other calls leave the mock untouched. *)
Definition m_exec (e : Event) (p : dir) : result dir :=
  match e with
  | ensembler.InitProject _ =>
      Ok {| toplevel := true; uniprot_targets := uniprot_targets p;
            templates_fa := templates_fa p; report := report p |}
  | ensembler.gather_templates_from_pdb (Some ids) _ _ _ =>
      Ok {| toplevel := toplevel p; uniprot_targets := uniprot_targets p;
            templates_fa := Some (map template_of_pdbid ids);
            report := report p |}
  | _ => Ok p
  end.

Definition m_path_exists (path : string) (p : dir) : bool :=
  match templates_fa p with
  | Some _ => String.eqb path "templates/templates-resolved-seq.fa"
  | None => false
  end.

Definition m_get_templates_resolved_seq (p : dir) : result (list SeqRecord) :=
  match templates_fa p with
  | Some l => Ok l
  | None => Raise IOError
  end.

Definition m_readlines (path : string) (p : dir) : result (list string) :=
  match report p with
  | Some l => Ok l
  | None => Raise IOError
  end.

(** [float] on the few strings the examples use. *)
Definition m_float_of_str (s : string) : option PrimFloat.float :=
  if String.eqb s "95.0" then Some 95%float
  else if String.eqb s "40.0" then Some 40%float
  else if String.eqb s "10.0" then Some 10%float
  else if String.eqb s "50" then Some 50%float
  else if String.eqb s "30" then Some 30%float
  else None.

Definition m_fmt_1f (x : PrimFloat.float) : string :=
  if PrimFloat.eqb x 50 then "50.0"
  else if PrimFloat.eqb x 30 then "30.0"
  else "?".

Definition collaborators : Collaborators :=
  {| Project := dir;
     check_project_toplevel_dir := toplevel;
     exec := m_exec;
     gathered_targets := uniprot_targets;
     path_exists := m_path_exists;
     get_templates_resolved_seq := m_get_templates_resolved_seq;
     readlines := m_readlines;
     float_of_str := m_float_of_str;
     fmt_1f := m_fmt_1f;
     dirnames_templates := "templates";
     dirnames_models := "models" |}.

Definition nl : string := String "010"%char "".

(** The report of the specification's example. *)
Definition report3 : list string :=
  ["T1 95.0" ++ nl; "T2 40.0" ++ nl; "T3 10.0" ++ nl].

(** An initialised project with templates and a report, nothing typed. *)
Definition dir0 : dir :=
  {| toplevel := true; uniprot_targets := [];
     templates_fa := Some [template_of_pdbid "T1"];
     report := Some report3 |}.

Definition world (p : dir) (typed : list string) : World collaborators :=
  Build_World collaborators p typed.

Definition world0 : World collaborators := world dir0 [].

(** [QuickModel(targetid='ABL1', templateids=['T1_A'], loopmodel=False,
    package_for_fah=True)] *)
Definition with_templateids : QuickModel :=
  {| targetid := Some "ABL1"; templateids := Some ["T1_A"];
     target_uniprot_entry_name := None; uniprot_domain_regex := None;
     pdbids := None; chainids := None; template_uniprot_query := None;
     model_seqid_cutoff := None; loopmodel := false;
     package_for_fah := true; nfahclones := None;
     structure_dirs := None; sim_length := picoseconds 100 |}.

(** [QuickModel(targetid='ABL1', model_seqid_cutoff=cutoff)] *)
Definition with_cutoff (cutoff : PrimFloat.float) : QuickModel :=
  {| targetid := Some "ABL1"; templateids := None;
     target_uniprot_entry_name := None; uniprot_domain_regex := None;
     pdbids := None; chainids := None; template_uniprot_query := None;
     model_seqid_cutoff := Some cutoff; loopmodel := true;
     package_for_fah := false; nfahclones := None;
     structure_dirs := None; sim_length := picoseconds 100 |}.

(** A project with a target to discover and no template yet. *)
Definition dir_no_templates : dir :=
  {| toplevel := true;
     uniprot_targets := [{| id := "ABL1_HUMAN_D0"; seq := "" |}];
     templates_fa := None;
     report := Some report3 |}.

(** The same with templates. *)
Definition dir_with_target : dir :=
  {| toplevel := true;
     uniprot_targets := [{| id := "ABL1_HUMAN_D0"; seq := "" |}];
     templates_fa := Some [template_of_pdbid "T1"];
     report := Some report3 |}.

(** [QuickModel(targetid='', target_uniprot_entry_name='ABL1_HUMAN',
    uniprot_domain_regex='^Pkinase', templateids=['T1_A'])] *)
Definition empty_targetid : QuickModel :=
  {| targetid := Some ""; templateids := Some ["T1_A"];
     target_uniprot_entry_name := Some "ABL1_HUMAN";
     uniprot_domain_regex := Some "^Pkinase";
     pdbids := None; chainids := None; template_uniprot_query := None;
     model_seqid_cutoff := None; loopmodel := true;
     package_for_fah := false; nfahclones := None;
     structure_dirs := None; sim_length := picoseconds 100 |}.

(** [QuickModel(target_uniprot_entry_name='ABL1_HUMAN',
    uniprot_domain_regex=pattern, templateids=['T1_A'])] *)
Definition with_entry_name (pattern : option string) : QuickModel :=
  {| targetid := None; templateids := Some ["T1_A"];
     target_uniprot_entry_name := Some "ABL1_HUMAN";
     uniprot_domain_regex := pattern;
     pdbids := None; chainids := None; template_uniprot_query := None;
     model_seqid_cutoff := None; loopmodel := true;
     package_for_fah := false; nfahclones := None;
     structure_dirs := None; sim_length := picoseconds 100 |}.

(** [QuickModel(targetid='ABL1', templateids=[], pdbids=['1OPL'])] *)
Definition empty_templateids : QuickModel :=
  {| targetid := Some "ABL1"; templateids := Some [];
     target_uniprot_entry_name := None; uniprot_domain_regex := None;
     pdbids := Some ["1OPL"]; chainids := None;
     template_uniprot_query := None;
     model_seqid_cutoff := None; loopmodel := true;
     package_for_fah := false; nfahclones := None;
     structure_dirs := None; sim_length := picoseconds 100 |}.

End Mock.

(** ** Further notions, for the properties beyond the specification *)

(** A computation that neither reads the console nor writes to it. *)
Definition silent (E : Collaborators) {A} (c : M E A) : Prop :=
  forall w r w' evs,
    c w = (r, w', evs) ->
    stdin E w' = stdin E w /\ Forall (fun e => console_event e = false) evs.

(** The initialisation of the project directory. *)
Definition init_call (e : Event) : bool :=
  match e with
  | ensembler.InitProject _ => true
  | _ => false
  end.

(** The clone count that reaches the packaging: the one given, 1 when it
    is [None] or 0. *)
Definition nclones_passed (nfahclones : option Z) : Z :=
  match nfahclones with
  | Some n => if (n =? 0)%Z then 1%Z else n
  | None => 1%Z
  end.


(** More projects and configurations to run the driver on. *)
Module Cases.

(** A directory that is not yet a project. *)
Definition dir_not_project : Mock.dir :=
  {| Mock.toplevel := false; Mock.uniprot_targets := [];
     Mock.templates_fa := None; Mock.report := None |}.

(** A project in which target discovery finds nothing. *)
Definition dir_no_target : Mock.dir :=
  {| Mock.toplevel := true; Mock.uniprot_targets := [];
     Mock.templates_fa := Some [Mock.template_of_pdbid "T1"];
     Mock.report := Some Mock.report3 |}.

(** A project whose report is the given lines. *)
Definition dir_with_report (lines : list string) : Mock.dir :=
  {| Mock.toplevel := true; Mock.uniprot_targets := [];
     Mock.templates_fa := Some [Mock.template_of_pdbid "T1"];
     Mock.report := Some lines |}.

(** Collaborators like the mock ones, but whose clustering fails. *)
Definition exec_clustering_fails (e : Event) (p : Mock.dir) : result Mock.dir :=
  match e with
  | ensembler.cluster_models _ => Raise (Other "clustering failed")
  | _ => Mock.m_exec e p
  end.

Definition clustering_fails : Collaborators :=
  {| Project := Mock.dir;
     check_project_toplevel_dir := Mock.toplevel;
     exec := exec_clustering_fails;
     gathered_targets := Mock.uniprot_targets;
     path_exists := Mock.m_path_exists;
     get_templates_resolved_seq := Mock.m_get_templates_resolved_seq;
     readlines := Mock.m_readlines;
     float_of_str := Mock.m_float_of_str;
     fmt_1f := Mock.m_fmt_1f;
     dirnames_templates := "templates";
     dirnames_models := "models" |}.

(** [QuickModel(targetid='ABL1', templateids=['T1_A'], package_for_fah=True,
    nfahclones=n)] *)
Definition with_nfahclones (n : Z) : QuickModel :=
  {| targetid := Some "ABL1"; templateids := Some ["T1_A"];
     target_uniprot_entry_name := None; uniprot_domain_regex := None;
     pdbids := None; chainids := None; template_uniprot_query := None;
     model_seqid_cutoff := None; loopmodel := false;
     package_for_fah := true; nfahclones := Some n;
     structure_dirs := None; sim_length := picoseconds 100 |}.

(** [QuickModel(targetid='ABL1')]: no template ids, no cutoff. *)
Definition interactive : QuickModel :=
  {| targetid := Some "ABL1"; templateids := None;
     target_uniprot_entry_name := None; uniprot_domain_regex := None;
     pdbids := None; chainids := None; template_uniprot_query := None;
     model_seqid_cutoff := None; loopmodel := true;
     package_for_fah := false; nfahclones := None;
     structure_dirs := None; sim_length := picoseconds 100 |}.

End Cases.

(** * Theorems *)

Example range_0_101_10 :
  range 0 101 10 = [0; 10; 20; 30; 40; 50; 60; 70; 80; 90; 100]%Z.
Proof. reflexivity. Qed.

Example split_line : split ("T1   95.0" ++ Mock.nl) = ["T1"; "95.0"].
Proof. reflexivity. Qed.

Example lower_YES : lower "YeS" = "yes".
Proof. reflexivity. Qed.

Example path_join_models :
  path_join ["models"; "ABL1"; "sequence-identities.txt"]
  = "models/ABL1/sequence-identities.txt".
Proof. reflexivity. Qed.

Example select_report3 :
  _select_templates_based_on_seqid_cutoff Mock.collaborators (Some "ABL1")
    (Some 50%float) Mock.world0 = (Ok ["T1"], Mock.world0, []).
Proof. vm_compute. reflexivity. Qed.

(** ** Floats: equal is not greater *)

Lemma SFeqb_not_SFltb (a b : spec_float) :
  SFeqb a b = true -> SFltb b a = false.
Proof.
  unfold SFeqb, SFltb.
  destruct a as [sa|sa| |sa ma ea], b as [sb|sb| |sb mb eb];
    simpl; try congruence.
  all: try (destruct sa, sb; congruence).
  all: try (destruct sa; congruence).
  all: try (destruct sb; congruence).
  rewrite (Z.compare_antisym ea eb).
  change (PosDef.Pos.compare_cont Eq mb ma) with (Pos.compare mb ma).
  change (PosDef.Pos.compare_cont Eq ma mb) with (Pos.compare ma mb).
  rewrite (Pos.compare_antisym ma mb).
  destruct sa, sb; try congruence;
    destruct (ea ?= eb)%Z; simpl; try congruence;
    destruct (Pos.compare ma mb); simpl; congruence.
Qed.

Lemma float_gt_eqb (a b : PrimFloat.float) :
  PrimFloat.eqb a b = true -> float_gt a b = false.
Proof.
  unfold float_gt. rewrite eqb_spec, ltb_spec. apply SFeqb_not_SFltb.
Qed.

(** ** Selecting rows of the data frame *)

Lemma keep_seqids_gt (cutoff : PrimFloat.float) :
  forall (ids : list string) (pcts : list PrimFloat.float),
    pd.keep (map (fun s => float_gt s cutoff) pcts) ids
    = ids_above cutoff (combine ids pcts).
Proof.
  unfold ids_above, float_gt.
  induction ids as [|i ids IH]; intros [|p pcts]; simpl; try reflexivity.
  rewrite IH. destruct (PrimFloat.ltb cutoff p); reflexivity.
Qed.

Lemma selected_templateids (df : pd.DataFrame) (cutoff : PrimFloat.float) :
  pd.col_templateids (pd.getitem df (pd.seqids_gt df cutoff))
  = ids_above cutoff (rows df).
Proof. apply keep_seqids_gt. Qed.

Lemma ids_above_app (c : PrimFloat.float) (r1 r2 : list (string * PrimFloat.float)) :
  ids_above c (r1 ++ r2) = (ids_above c r1 ++ ids_above c r2)%list.
Proof. unfold ids_above. now rewrite filter_app, map_app. Qed.

Lemma ids_above_equal_dropped (c : PrimFloat.float) (t : string)
    (p : PrimFloat.float) (before after : list (string * PrimFloat.float)) :
  PrimFloat.eqb p c = true ->
  ids_above c (before ++ (t, p) :: after) = ids_above c (before ++ after).
Proof.
  intros Heq. rewrite !ids_above_app. f_equal.
  unfold ids_above. simpl.
  pose proof (float_gt_eqb p c Heq) as Hgt. unfold float_gt in Hgt.
  now rewrite Hgt.
Qed.

(** With a cutoff given, the method reads the report and returns the
    selected ids; it prints nothing and asks nothing. *)
Lemma select_with_cutoff (E : Collaborators) (tid : string)
    (cutoff : PrimFloat.float) (w : World E) (lines : list string)
    (df : pd.DataFrame) :
  readlines E (path_join [dirnames_models E; tid; "sequence-identities.txt"])
    (project E w) = Ok lines ->
  read_seqids E lines = Ok df ->
  _select_templates_based_on_seqid_cutoff E (Some tid) (Some cutoff) w
  = (Ok (ids_above cutoff (rows df)), w, []).
Proof.
  intros Hread Hparse.
  unfold _select_templates_based_on_seqid_cutoff, bind, query, lift, ret.
  rewrite Hread, Hparse, <- selected_templateids.
  reflexivity.
Qed.

(** ** Reading the report *)

Lemma read_templateids (E : Collaborators) :
  forall (lines : list string) (report : list (string * PrimFloat.float)),
    Forall2 (line_is_row E) lines report ->
    comprehension item0 (map split lines) = Ok (map fst report).
Proof.
  induction 1 as [|line row lines report (field & more & Hs & _) _ IH]; simpl.
  - reflexivity.
  - rewrite Hs. simpl. now rewrite IH.
Qed.

Lemma read_seqid_column (E : Collaborators) :
  forall (lines : list string) (report : list (string * PrimFloat.float)),
    Forall2 (line_is_row E) lines report ->
    comprehension (fun i => match item1 i with
                            | Raise e => Raise e
                            | Ok x => float E x
                            end) (map split lines) = Ok (map snd report).
Proof.
  induction 1 as [|line row lines report (field & more & Hs & Hf) _ IH]; simpl.
  - reflexivity.
  - rewrite Hs. simpl. unfold float at 1. rewrite Hf. now rewrite IH.
Qed.

Lemma combine_fst_snd {A B} (l : list (A * B)) :
  combine (map fst l) (map snd l) = l.
Proof.
  induction l as [|[a b] l IH]; simpl; [reflexivity|now rewrite IH].
Qed.

Lemma read_seqids_rows (E : Collaborators) :
  forall (lines : list string) (report : list (string * PrimFloat.float)),
    Forall2 (line_is_row E) lines report ->
    read_seqids E lines = Ok (frame report).
Proof.
  intros lines report H.
  unfold read_seqids.
  rewrite (read_templateids E lines report H).
  rewrite (read_seqid_column E lines report H).
  reflexivity.
Qed.

Lemma rows_frame (report : list (string * PrimFloat.float)) :
  rows (frame report) = report.
Proof. apply combine_fst_snd. Qed.

(** C2: for every report and every threshold given as a number, the
    selection returns the identifiers of the rows whose percentage is
    strictly greater than the threshold, in the order of the rows, and
    does nothing else; a row whose percentage equals the threshold is
    left out. *)
Theorem selection_strictly_above_threshold (E : Collaborators) (tid : string)
    (threshold : PrimFloat.float) (w : World E) (lines : list string)
    (report : list (string * PrimFloat.float)) :
  readlines E (path_join [dirnames_models E; tid; "sequence-identities.txt"])
    (project E w) = Ok lines ->
  Forall2 (line_is_row E) lines report ->
  _select_templates_based_on_seqid_cutoff E (Some tid) (Some threshold) w
  = (Ok (ids_above threshold report), w, [])
  /\ (forall t p before after,
        report = (before ++ (t, p) :: after)%list ->
        PrimFloat.eqb p threshold = true ->
        ids_above threshold report = ids_above threshold (before ++ after)).
Proof.
  intros Hread Hrows.
  pose proof (read_seqids_rows E lines report Hrows) as Hdf.
  split.
  - rewrite <- (rows_frame report) at 1.
    now apply select_with_cutoff with (lines := lines).
  - intros t p before after -> Heq. now apply ids_above_equal_dropped.
Qed.

(** The example of the specification: report [(T1, 95.0), (T2, 40.0),
    (T3, 10.0)], threshold 50. *)
Lemma selection_strictly_above_threshold_witness :
  _select_templates_based_on_seqid_cutoff Mock.collaborators (Some "ABL1")
    (Some 50%float) Mock.world0
  = (Ok ["T1"], Mock.world0, []).
Proof.
  apply (selection_strictly_above_threshold Mock.collaborators "ABL1"
           50%float Mock.world0 Mock.report3
           [("T1", 95%float); ("T2", 40%float); ("T3", 10%float)]).
  - reflexivity.
  - apply Forall2_cons; [exists "95.0", []; split; reflexivity|].
    apply Forall2_cons; [exists "40.0", []; split; reflexivity|].
    apply Forall2_cons; [exists "10.0", []; split; reflexivity|].
    apply Forall2_nil.
Defined.

(** ** Choosing the cutoff at the console *)

Lemma len_selected (report : list (string * PrimFloat.float))
    (cutoff : PrimFloat.float) :
  pd.len (pd.getitem (frame report) (pd.seqids_gt (frame report) cutoff))
  = count_above cutoff report.
Proof.
  unfold pd.len, pd.getitem, pd.seqids_gt, count_above, ids_above, float_gt.
  simpl. rewrite length_map.
  induction report as [|[t p] report IH]; simpl; [reflexivity|].
  destruct (PrimFloat.ltb cutoff p); simpl; now rewrite IH.
Qed.

Lemma for_each_say (E : Collaborators) {A} (line : A -> Event) (w : World E) :
  forall l : list A,
    for_each E (fun x => say E (line x)) l w = (Ok tt, w, map line l).
Proof.
  induction l as [|x l IH]; simpl.
  - reflexivity.
  - unfold bind, say at 1. now rewrite IH.
Qed.

Lemma histogram_printed (E : Collaborators)
    (report : list (string * PrimFloat.float)) (w : World E) :
  for_each E (fun cutoff => say E (histogram_line (frame report) cutoff))
    (range 0 101 10) w
  = (Ok tt, w, histogram report).
Proof.
  rewrite for_each_say. unfold histogram, histogram_line.
  rewrite range_0_101_10. simpl. now rewrite !len_selected.
Qed.

Lemma choose_cutoff_turn_events (E : Collaborators) (tid : string)
    (report : list (string * PrimFloat.float)) (t : turn) :
  [ensembler.raw_input (prompt_cutoff tid);
   chosen_line E (frame report) (value t);
   ensembler.raw_input prompt_confirm]
  = turn_events E tid report t.
Proof. unfold turn_events, chosen_line. now rewrite len_selected. Qed.

(** The loop goes through the turns that are not confirmed and stops at
    the first confirmed one. *)
Lemma choose_cutoff_confirmed (E : Collaborators) (tid : string)
    (report : list (string * PrimFloat.float)) (last : turn)
    (rest : list string) :
  float_of_str E (typed last) = Some (value last) ->
  affirmative (answer last) = true ->
  forall rejected : list turn,
    Forall (fun t => float_of_str E (typed t) = Some (value t)) rejected ->
    Forall (fun t => affirmative (answer t) = false) rejected ->
    choose_cutoff E (frame report) tid
      (List.concat (map turn_lines rejected) ++ turn_lines last ++ rest)%list
    = (Ok (value last), rest,
       List.concat (map (turn_events E tid report) (rejected ++ [last]))).
Proof.
  intros Hlast Hyes.
  induction rejected as [|t rejected IH]; intros Hparse Hno.
  - cbn [List.concat map turn_lines app choose_cutoff].
    unfold float. rewrite Hlast.
    unfold affirmative in Hyes. rewrite Hyes.
    now rewrite choose_cutoff_turn_events, app_nil_r.
  - inversion Hparse as [|? ? Ht Hparse']; subst.
    inversion Hno as [|? ? Hn Hno']; subst.
    change (List.concat (map turn_lines (t :: rejected))
            ++ turn_lines last ++ rest)%list
      with (typed t :: answer t
            :: (List.concat (map turn_lines rejected)
                ++ turn_lines last ++ rest))%list.
    cbn [choose_cutoff].
    unfold float at 1. rewrite Ht.
    unfold affirmative in Hn. rewrite Hn.
    rewrite (IH Hparse' Hno').
    now rewrite choose_cutoff_turn_events.
Qed.

(** If nobody ever confirms, the loop ends only when the console is
    closed, with [EOFError]: no cutoff is returned. *)
Lemma choose_cutoff_never_confirmed (E : Collaborators) (tid : string)
    (report : list (string * PrimFloat.float)) :
  forall rejected : list turn,
    Forall (fun t => float_of_str E (typed t) = Some (value t)) rejected ->
    Forall (fun t => affirmative (answer t) = false) rejected ->
    exists evs,
      choose_cutoff E (frame report) tid (List.concat (map turn_lines rejected))
      = (Raise EOFError, [], evs).
Proof.
  induction rejected as [|t rejected IH]; intros Hparse Hno.
  - simpl. eexists; reflexivity.
  - inversion Hparse as [|? ? Ht Hparse']; subst.
    inversion Hno as [|? ? Hn Hno']; subst.
    destruct (IH Hparse' Hno') as (evs & Hevs).
    change (List.concat (map turn_lines (t :: rejected)))
      with (typed t :: answer t :: List.concat (map turn_lines rejected)).
    cbn [choose_cutoff].
    unfold float at 1. rewrite Ht.
    unfold affirmative in Hn. rewrite Hn, Hevs.
    eexists; reflexivity.
Qed.

(** C9: with no threshold given, the selection first prints, for each
    cutoff 0, 10, ..., 100, the number of templates whose identity
    strictly exceeds it; then it asks for a threshold and a
    confirmation, turn after turn, until a confirmation is [y] or [yes];
    and it filters with the threshold of that last turn. *)
Theorem interactive_selection (E : Collaborators) (tid : string)
    (w : World E) (lines : list string)
    (report : list (string * PrimFloat.float))
    (rejected : list turn) (last : turn) (rest : list string) :
  readlines E (path_join [dirnames_models E; tid; "sequence-identities.txt"])
    (project E w) = Ok lines ->
  Forall2 (line_is_row E) lines report ->
  stdin E w = (List.concat (map turn_lines rejected) ++ turn_lines last ++ rest)%list ->
  Forall (fun t => float_of_str E (typed t) = Some (value t)) (rejected ++ [last]) ->
  Forall (fun t => affirmative (answer t) = false) rejected ->
  affirmative (answer last) = true ->
  _select_templates_based_on_seqid_cutoff E (Some tid) None w
  = (Ok (ids_above (value last) report),
     {| project := project E w; stdin := rest |},
     (histogram report
      ++ List.concat (map (turn_events E tid report) (rejected ++ [last])))%list).
Proof.
  intros Hread Hrows Hin Hparse Hno Hyes.
  apply Forall_app in Hparse as [Hparse Hlast].
  inversion Hlast as [|? ? Hl _]; subst.
  unfold _select_templates_based_on_seqid_cutoff.
  unfold bind at 1. unfold query at 1. rewrite Hread.
  unfold bind at 1. unfold lift at 1.
  rewrite (read_seqids_rows E lines report Hrows).
  unfold bind at 1. unfold bind at 1.
  rewrite histogram_printed.
  unfold while_not_chosen. rewrite Hin.
  rewrite (choose_cutoff_confirmed E tid report last rest Hl Hyes rejected Hparse Hno).
  unfold ret. rewrite selected_templateids, rows_frame.
  now rewrite !app_nil_r.
Qed.

(** Two turns at the console: 30 is typed and not confirmed, then 50 is
    typed and confirmed. *)
Lemma interactive_selection_witness :
  _select_templates_based_on_seqid_cutoff Mock.collaborators (Some "ABL1") None
    (Mock.world Mock.dir0 ["30"; "n"; "50"; "YES"; "left"])
  = (Ok ["T1"], Mock.world Mock.dir0 ["left"],
     [ensembler.print "Number of templates with seqid > 0: 3";
      ensembler.print "Number of templates with seqid > 10: 2";
      ensembler.print "Number of templates with seqid > 20: 2";
      ensembler.print "Number of templates with seqid > 30: 2";
      ensembler.print "Number of templates with seqid > 40: 1";
      ensembler.print "Number of templates with seqid > 50: 1";
      ensembler.print "Number of templates with seqid > 60: 1";
      ensembler.print "Number of templates with seqid > 70: 1";
      ensembler.print "Number of templates with seqid > 80: 1";
      ensembler.print "Number of templates with seqid > 90: 1";
      ensembler.print "Number of templates with seqid > 100: 0";
      ensembler.raw_input
        "Choose a sequence identity cutoff for target ABL1 (confirm at next step): ";
      ensembler.print
        "Number of templates chosen by sequence identity cutoff (30.0): 2";
      ensembler.raw_input "Use this sequence identity cutoff? (y|N): ";
      ensembler.raw_input
        "Choose a sequence identity cutoff for target ABL1 (confirm at next step): ";
      ensembler.print
        "Number of templates chosen by sequence identity cutoff (50.0): 1";
      ensembler.raw_input "Use this sequence identity cutoff? (y|N): "]).
Proof.
  apply (interactive_selection Mock.collaborators "ABL1"
           (Mock.world Mock.dir0 ["30"; "n"; "50"; "YES"; "left"])
           Mock.report3
           [("T1", 95%float); ("T2", 40%float); ("T3", 10%float)]
           [{| typed := "30"; value := 30%float; answer := "n" |}]
           {| typed := "50"; value := 50%float; answer := "YES" |}
           ["left"]).
  - reflexivity.
  - apply Forall2_cons; [exists "95.0", []; split; reflexivity|].
    apply Forall2_cons; [exists "40.0", []; split; reflexivity|].
    apply Forall2_cons; [exists "10.0", []; split; reflexivity|].
    apply Forall2_nil.
  - reflexivity.
  - repeat constructor.
  - repeat constructor.
  - reflexivity.
Defined.

(** ** Sequencing *)

Lemma bind_Ok (E : Collaborators) {A B} (c : M E A) (k : A -> M E B)
    (w w1 : World E) (a : A) (ev1 : list Event) :
  c w = (Ok a, w1, ev1) ->
  bind c k w = (let '(r, w2, ev2) := k a w1 in (r, w2, (ev1 ++ ev2)%list)).
Proof. intros H. unfold bind. rewrite H. now destruct (k a w1) as [[r w2] ev2]. Qed.

Lemma bind_Raise (E : Collaborators) {A B} (c : M E A) (k : A -> M E B)
    (w w1 : World E) (e : exn) (ev1 : list Event) :
  c w = (Raise e, w1, ev1) ->
  bind c k w = (Raise e, w1, ev1).
Proof. intros H. unfold bind. now rewrite H. Qed.

Lemma emits_bind (E : Collaborators) {A B} (P : Event -> Prop)
    (c : M E A) (k : A -> M E B) :
  emits E P c -> (forall a, emits E P (k a)) -> emits E P (bind c k).
Proof.
  intros Hc Hk w r w' evs. unfold bind.
  destruct (c w) as [[[a|e] w1] ev1] eqn:Hcw.
  - destruct (k a w1) as [[r2 w2] ev2] eqn:Hkw.
    intros [= <- <- <-]. apply Forall_app; split.
    + eapply Hc; eassumption.
    + eapply Hk; eassumption.
  - intros [= <- <- <-]. eapply Hc; eassumption.
Qed.

Lemma emits_ret (E : Collaborators) {A} (P : Event -> Prop) (a : A) :
  emits E P (ret a).
Proof. intros w r w' evs [= <- <- <-]. constructor. Qed.

Lemma emits_raise (E : Collaborators) {A} (P : Event -> Prop) (e : exn) :
  emits E P (@raise E A e).
Proof. intros w r w' evs [= <- <- <-]. constructor. Qed.

Lemma emits_lift (E : Collaborators) {A} (P : Event -> Prop) (x : result A) :
  emits E P (lift E x).
Proof. intros w r w' evs [= <- <- <-]. constructor. Qed.

Lemma emits_ask (E : Collaborators) {A} (P : Event -> Prop) (f : Project E -> A) :
  emits E P (ask E f).
Proof. intros w r w' evs [= <- <- <-]. constructor. Qed.

Lemma emits_query (E : Collaborators) {A} (P : Event -> Prop)
    (f : Project E -> result A) :
  emits E P (query E f).
Proof. intros w r w' evs [= <- <- <-]. constructor. Qed.

Lemma emits_call (E : Collaborators) (P : Event -> Prop) (e : Event) :
  P e -> emits E P (call E e).
Proof.
  intros He w r w' evs. unfold call.
  destruct (exec E e (project E w)); intros [= <- <- <-]; now constructor.
Qed.

Lemma emits_say (E : Collaborators) (P : Event -> Prop) (e : Event) :
  P e -> emits E P (say E e).
Proof. intros He w r w' evs [= <- <- <-]. now constructor. Qed.

Lemma emits_for_each (E : Collaborators) {A} (P : Event -> Prop)
    (body : A -> M E unit) (l : list A) :
  (forall x, emits E P (body x)) -> emits E P (for_each E body l).
Proof.
  intros Hb. induction l as [|x l IH]; simpl.
  - apply emits_ret.
  - apply emits_bind; auto.
Qed.

(** ** Calls made one after the other *)

Lemma calls_cons (E : Collaborators) (e : Event) (l : list Event) (w : World E) :
  for_each E (call E) (e :: l) w
  = match exec E e (project E w) with
    | Ok p =>
        let '(r, w2, evs) :=
          for_each E (call E) l {| project := p; stdin := stdin E w |} in
        (r, w2, e :: evs)
    | Raise x => (Raise x, w, [e])
    end.
Proof.
  simpl. unfold bind, call.
  destruct (exec E e (project E w)) as [p|x]; [|reflexivity].
  now destruct (for_each E (call E) l {| project := p; stdin := stdin E w |})
    as [[r w2] evs].
Qed.

(** The calls made are a beginning of the list, and the whole list when
    none of them raises; the console is not read. *)
Lemma calls_in_order (E : Collaborators) :
  forall (l : list Event) (w : World E) r w' evs,
    for_each E (call E) l w = (r, w', evs) ->
    prefix_of evs l
    /\ (r = Ok tt -> evs = l)
    /\ stdin E w' = stdin E w.
Proof.
  induction l as [|e l IH]; intros w r w' evs.
  - simpl. intros [= <- <- <-].
    split; [now exists []|split; [reflexivity|reflexivity]].
  - rewrite calls_cons.
    destruct (exec E e (project E w)) as [p|x].
    + destruct (for_each E (call E) l {| project := p; stdin := stdin E w |})
        as [[r2 w2] ev2] eqn:Hl.
      intros [= <- <- <-].
      destruct (IH _ _ _ _ Hl) as ((rest & Hrest) & Hok & Hin).
      split; [|split].
      * exists rest. simpl. now rewrite <- Hrest.
      * intros Hr. now rewrite (Hok Hr).
      * exact Hin.
    + intros [= <- <- <-].
      split; [|split].
      * now exists l.
      * discriminate.
      * reflexivity.
Qed.

(** When no collaborator raises, every call of the list is made. *)
Lemma calls_all_made (E : Collaborators) :
  (forall e p, exists p', exec E e p = Ok p') ->
  forall (l : list Event) (w : World E),
    exists w', for_each E (call E) l w = (Ok tt, w', l).
Proof.
  intros Htotal. induction l as [|e l IH]; intros w.
  - exists w. reflexivity.
  - rewrite calls_cons.
    destruct (Htotal e (project E w)) as (p & ->).
    destruct (IH {| project := p; stdin := stdin E w |}) as (w' & ->).
    now exists w'.
Qed.

(** [_model] makes the calls of the modelling sequence, one after the
    other. *)
Lemma _model_calls (E : Collaborators) (self : QuickModel)
    (targetid : option string) (templateids : option (list string))
    (loopmodel package_for_fah : bool) (nfahclones : option Z) (w : World E) :
  _model E self targetid templateids loopmodel package_for_fah nfahclones w
  = for_each E (call E)
      (modeling_sequence self targetid templateids loopmodel package_for_fah
         nfahclones) w.
Proof.
  unfold _model, modeling_sequence.
  destruct loopmodel, package_for_fah; cbn [truthy truthy_bool app for_each];
    unfold bind, call, ret;
    repeat match goal with
      | |- context [exec E ?e ?p] =>
          destruct (exec E e p); cbn [project stdin app]; try reflexivity
      end.
Qed.

(** ** What the constructor does before the modelling sequence *)

Lemma returns_bind (E : Collaborators) {A B} (R : A -> Prop) (Q : B -> Prop)
    (c : M E A) (k : A -> M E B) :
  returns E R c -> (forall a, R a -> returns E Q (k a)) ->
  returns E Q (bind c k).
Proof.
  intros Hc Hk w b w' evs. unfold bind.
  destruct (c w) as [[[a|e] w1] ev1] eqn:Hcw; [|discriminate].
  destruct (k a w1) as [[r2 w2] ev2] eqn:Hkw.
  intros [= -> <- <-].
  eapply Hk; [eapply Hc|]; eassumption.
Qed.

Lemma returns_any (E : Collaborators) {A} (c : M E A) :
  returns E (fun _ => True) c.
Proof. now intros w a w' evs _. Qed.

Lemma returns_ret (E : Collaborators) {A} (Q : A -> Prop) (a : A) :
  Q a -> returns E Q (ret a).
Proof. now intros Ha w b w' evs [= <- _ _]. Qed.

Lemma returns_raise (E : Collaborators) {A} (Q : A -> Prop) (e : exn) :
  returns E Q (@raise E A e).
Proof. intros w b w' evs; discriminate. Qed.

Lemma same_options_refl (self : QuickModel) : same_options self self.
Proof. now destruct self. Qed.

Lemma same_options_targetid (self self' : QuickModel) (v : option string) :
  same_options self self' -> same_options self (set_targetid self' v).
Proof. intros <-. now destruct self'. Qed.

Lemma same_options_templateids (self self' : QuickModel)
    (v : option (list string)) :
  same_options self self' -> same_options self (set_templateids self' v).
Proof. intros <-. now destruct self'. Qed.

Lemma same_options_fields (self self' : QuickModel) :
  same_options self self' ->
  loopmodel self' = loopmodel self
  /\ package_for_fah self' = package_for_fah self
  /\ nfahclones self' = nfahclones self
  /\ sim_length self' = sim_length self.
Proof. intros <-. now destruct self'. Qed.

Lemma emits_weaken (E : Collaborators) {A} (P Q : Event -> Prop) (c : M E A) :
  (forall e, P e -> Q e) -> emits E P c -> emits E Q c.
Proof.
  intros HPQ Hc w r w' evs Hrun.
  eapply Forall_impl; [exact HPQ|]. eapply Hc; eassumption.
Qed.

Lemma choose_cutoff_console (E : Collaborators) (df : pd.DataFrame) (tid : string) :
  forall (n : nat) (lines : list string) r rest evs,
    (List.length lines <= n)%nat ->
    choose_cutoff E df tid lines = (r, rest, evs) ->
    Forall (fun e => console_event e = true) evs.
Proof.
  induction n as [|n IH]; intros lines r rest evs Hn.
  - destruct lines; [|simpl in Hn; lia].
    simpl. intros [= <- <- <-]. now repeat constructor.
  - destruct lines as [|a [|c lines]]; cbn [choose_cutoff].
    + intros [= <- <- <-]. now repeat constructor.
    + destruct (float E a); intros [= <- <- <-]; now repeat constructor.
    + destruct (float E a); [|intros [= <- <- <-]; now repeat constructor].
      destruct (str_in (lower c) ["y"; "yes"]).
      * intros [= <- <- <-]. now repeat constructor.
      * destruct (choose_cutoff E df tid lines) as [[r2 rest2] ev2] eqn:Hrec.
        intros [= <- <- <-].
        assert (Hq : Forall (fun e => console_event e = true) ev2).
        { eapply IH; [|exact Hrec]. simpl in Hn. lia. }
        now repeat constructor.
Qed.

(** The selection only prints and prompts. *)
Lemma _select_console (E : Collaborators) (targetid : option string)
    (seqid_cutoff : option PrimFloat.float) :
  emits E (fun e => console_event e = true)
    (_select_templates_based_on_seqid_cutoff E targetid seqid_cutoff).
Proof.
  unfold _select_templates_based_on_seqid_cutoff.
  destruct targetid as [tid|]; [|apply emits_raise].
  apply emits_bind; [apply emits_query|intros lines].
  apply emits_bind; [apply emits_lift|intros df].
  apply emits_bind; [|intros c; apply emits_ret].
  destruct seqid_cutoff as [c|]; [apply emits_ret|].
  apply emits_bind.
  - apply emits_for_each. intros x. now apply emits_say.
  - intros _ w r w' evs. unfold while_not_chosen.
    destruct (choose_cutoff E df tid (stdin E w)) as [[r2 rest] ev2] eqn:Hc.
    intros [= <- <- <-].
    eapply choose_cutoff_console; [|exact Hc]. reflexivity.
Qed.

Lemma _select_quiet (E : Collaborators) (targetid : option string)
    (seqid_cutoff : option PrimFloat.float) :
  emits E quiet (_select_templates_based_on_seqid_cutoff E targetid seqid_cutoff).
Proof.
  eapply emits_weaken; [|apply _select_console].
  intros e. destruct e; simpl; congruence.
Qed.

Lemma resolve_targetid_quiet (E : Collaborators) (self : QuickModel) :
  emits E quiet (resolve_targetid E self).
Proof.
  unfold resolve_targetid.
  destruct (negb (truthy (targetid self))); [|apply emits_ret].
  destruct (orb _ _); [apply emits_raise|].
  apply emits_bind; [now apply emits_call|intros _].
  apply emits_bind; [apply emits_ask|intros targets].
  apply emits_bind; [apply emits_lift|intros first].
  apply emits_ret.
Qed.

Lemma find_existing_templates_quiet (E : Collaborators) :
  emits E quiet (find_existing_templates E).
Proof.
  unfold find_existing_templates.
  apply emits_bind; [apply emits_ask|intros [|]; [|apply emits_ret]].
  apply emits_bind; [apply emits_query|intros l].
  destruct (0 <? List.length l)%nat; apply emits_ret.
Qed.

Lemma resolve_templateids_quiet (E : Collaborators) (self : QuickModel)
    (existing_templates : bool) :
  emits E quiet (resolve_templateids E self existing_templates).
Proof.
  unfold resolve_templateids, _align_all_templates.
  destruct (truthy (templateids self)).
  { destruct (negb existing_templates); [apply emits_raise|apply emits_ret]. }
  destruct (truthy (pdbids self)).
  { apply emits_bind; [now apply emits_call|intros _].
    apply emits_bind; [apply emits_query|intros l]. apply emits_ret. }
  destruct (truthy (template_uniprot_query self)).
  { apply emits_bind; [now apply emits_call|intros _].
    apply emits_bind; [now apply emits_call|intros _].
    apply emits_bind; [apply _select_quiet|intros l]. apply emits_ret. }
  destruct (negb existing_templates); [apply emits_raise|].
  apply emits_bind; [now apply emits_call|intros _].
  apply emits_bind; [apply _select_quiet|intros l]. apply emits_ret.
Qed.

(** Resolving the target and the templates makes no call of the
    modelling sequence. *)
Lemma resolve_quiet (E : Collaborators) (self : QuickModel) :
  emits E quiet (resolve E self).
Proof.
  unfold resolve, ensure_project, check_target_arguments.
  apply emits_bind.
  { apply emits_bind; [apply emits_ask|intros [|]]; simpl.
    - apply emits_ret.
    - now apply emits_call. }
  intros _. apply emits_bind.
  { destruct (orb _ _); [apply emits_raise|apply emits_ret]. }
  intros _. apply emits_bind; [apply resolve_targetid_quiet|intros self1].
  apply emits_bind; [apply find_existing_templates_quiet|intros ex].
  apply resolve_templateids_quiet.
Qed.

(** It changes nothing in the object but [targetid] and [templateids]. *)
Lemma resolve_same_options (E : Collaborators) (self : QuickModel) :
  returns E (same_options self) (resolve E self).
Proof.
  unfold resolve.
  eapply returns_bind; [apply returns_any|intros _ _].
  eapply returns_bind; [apply returns_any|intros _ _].
  eapply returns_bind with (R := same_options self).
  { unfold resolve_targetid.
    destruct (negb (truthy (targetid self)));
      [|apply returns_ret, same_options_refl].
    destruct (orb _ _); [apply returns_raise|].
    eapply returns_bind; [apply returns_any|intros _ _].
    eapply returns_bind; [apply returns_any|intros targets _].
    eapply returns_bind; [apply returns_any|intros first _].
    apply returns_ret, same_options_targetid, same_options_refl. }
  intros self1 H1.
  eapply returns_bind; [apply returns_any|intros ex _].
  unfold resolve_templateids.
  destruct (truthy (templateids self1)).
  { destruct (negb ex); [apply returns_raise|now apply returns_ret]. }
  destruct (truthy (pdbids self1)).
  { eapply returns_bind; [apply returns_any|intros _ _].
    eapply returns_bind; [apply returns_any|intros l _].
    now apply returns_ret, same_options_templateids. }
  destruct (truthy (template_uniprot_query self1)).
  { eapply returns_bind; [apply returns_any|intros _ _].
    eapply returns_bind; [apply returns_any|intros _ _].
    eapply returns_bind; [apply returns_any|intros l _].
    now apply returns_ret, same_options_templateids. }
  destruct (negb ex); [apply returns_raise|].
  eapply returns_bind; [apply returns_any|intros _ _].
  eapply returns_bind; [apply returns_any|intros l _].
  now apply returns_ret, same_options_templateids.
Qed.

(** ** The end of the constructor *)

(** With no template, the constructor warns and returns. *)
Lemma __init___no_templates (E : Collaborators) (self self' : QuickModel)
    (w w1 : World E) (ev1 : list Event) :
  resolve E self w = (Ok self', w1, ev1) ->
  truthy (templateids self') = false ->
  __init__ E self w
  = (Ok self', w1, (ev1 ++ [ensembler.warn "No templates found. Exiting."])%list).
Proof.
  intros Hres Hnone. unfold __init__.
  rewrite (bind_Ok E _ _ w w1 self' ev1 Hres).
  unfold model_or_exit. rewrite Hnone. reflexivity.
Qed.

(** With templates, it runs [_model] on what was resolved. *)
Lemma __init___models (E : Collaborators) (self self' : QuickModel)
    (w w1 : World E) (ev1 : list Event) :
  resolve E self w = (Ok self', w1, ev1) ->
  truthy (templateids self') = true ->
  exists r w2 ev2,
    for_each E (call E)
      (modeling_sequence self' (targetid self') (templateids self')
         (loopmodel self') (package_for_fah self') (nfahclones self')) w1
    = (r, w2, ev2)
    /\ __init__ E self w
       = (match r with Ok _ => Ok self' | Raise e => Raise e end,
          w2, (ev1 ++ ev2)%list).
Proof.
  intros Hres Hsome. unfold __init__.
  rewrite (bind_Ok E _ _ w w1 self' ev1 Hres).
  unfold model_or_exit. rewrite Hsome.
  assert (Hlen : len_is_0 (templateids self') = false).
  { destruct (templateids self') as [[|t l]|]; try discriminate. reflexivity. }
  rewrite Hlen. cbn [negb orb].
  unfold bind at 1. rewrite _model_calls.
  destruct (for_each E (call E) _ w1) as [[[[]|e] w2] ev2].
  - exists (Ok tt), w2, ev2. split; [reflexivity|].
    unfold ret. now rewrite app_nil_r.
  - exists (Raise e), w2, ev2. split; reflexivity.
Qed.

(** C4: in every run that reaches the modelling and refinement sequence,
    the calls made from then on are, in this order: loop modelling (if
    enabled), alignment, model building, clustering, implicit-solvent
    refinement, solvation, solvent count, explicit-solvent refinement,
    packaging (if requested), the flags being those given to the
    constructor. Nothing of the sequence is called before;
    the calls made are always a beginning of that list, and the whole
    list when the constructor returns; and it returns whenever no
    collaborator raises. Without loop modelling the list is the same
    with its first call left out. *)
Theorem modeling_sequence_in_order (E : Collaborators) (self self' : QuickModel)
    (w w1 : World E) (ev1 : list Event) :
  resolve E self w = (Ok self', w1, ev1) ->
  truthy (templateids self') = true ->
  let sequence b :=
    modeling_sequence self' (targetid self') (templateids self') b
      (package_for_fah self') (nfahclones self') in
  exists r w2 ev2,
    __init__ E self w = (r, w2, (ev1 ++ ev2)%list)
    /\ same_options self self'
    /\ Forall quiet ev1
    /\ prefix_of ev2 (sequence (loopmodel self'))
    /\ (r = Ok self' -> ev2 = sequence (loopmodel self'))
    /\ ((forall e p, exists p', exec E e p = Ok p') ->
        r = Ok self' /\ ev2 = sequence (loopmodel self'))
    /\ sequence true
       = ensembler.model_template_loops (templateids self') :: sequence false
    /\ sequence false
       = ([ensembler.align_targets_and_templates (targetid self') (templateids self');
           ensembler.build_models (targetid self') (templateids self');
           ensembler.cluster_models (targetid self');
           ensembler.refine_implicit_md (targetid self') (templateids self')
             (sim_length self');
           ensembler.solvate_models (targetid self') (templateids self');
           ensembler.determine_nwaters (targetid self') (templateids self');
           ensembler.refine_explicit_md (targetid self') (templateids self')
             (sim_length self')]
          ++ (if package_for_fah self'
              then [ensembler.package_for_fah (targetid self')
                      (if negb (truthy (nfahclones self')) then Some 1%Z
                       else nfahclones self')]
              else []))%list.
Proof.
  intros Hres Hsome sequence.
  destruct (__init___models E self self' w w1 ev1 Hres Hsome)
    as (r & w2 & ev2 & Hcalls & Hinit).
  destruct (calls_in_order E _ _ _ _ _ Hcalls) as (Hpre & Hall & _).
  exists (match r with Ok _ => Ok self' | Raise e => Raise e end), w2, ev2.
  split; [exact Hinit|].
  split; [exact (resolve_same_options E self w _ _ _ Hres)|].
  split; [exact (resolve_quiet E self w _ _ _ Hres)|].
  split; [exact Hpre|].
  split.
  { destruct r as [[]|e]; [intros _; now apply Hall|discriminate]. }
  split.
  { intros Htotal.
    destruct (calls_all_made E Htotal (sequence (loopmodel self')) w1)
      as (w' & Hmade).
    unfold sequence in Hmade. rewrite Hmade in Hcalls.
    injection Hcalls as <- <- <-. now split. }
  split; reflexivity.
Qed.

Lemma mock_never_raises :
  forall e p, exists p', exec Mock.collaborators e p = Ok p'.
Proof.
  intros e p. destruct e as [| |ids ? ? ?| | | | | | | | | | | | |]; simpl;
    try (eexists; reflexivity).
  destruct ids; eexists; reflexivity.
Qed.

(** Loop modelling disabled, packaging requested: the seven calls, then
    packaging. *)
Lemma modeling_sequence_in_order_witness :
  exists w2,
  __init__ Mock.collaborators Mock.with_templateids Mock.world0
  = (Ok Mock.with_templateids, w2,
     [ensembler.align_targets_and_templates (Some "ABL1") (Some ["T1_A"]);
      ensembler.build_models (Some "ABL1") (Some ["T1_A"]);
      ensembler.cluster_models (Some "ABL1");
      ensembler.refine_implicit_md (Some "ABL1") (Some ["T1_A"]) (picoseconds 100);
      ensembler.solvate_models (Some "ABL1") (Some ["T1_A"]);
      ensembler.determine_nwaters (Some "ABL1") (Some ["T1_A"]);
      ensembler.refine_explicit_md (Some "ABL1") (Some ["T1_A"]) (picoseconds 100);
      ensembler.package_for_fah (Some "ABL1") (Some 1%Z)]).
Proof.
  destruct (modeling_sequence_in_order Mock.collaborators
              Mock.with_templateids Mock.with_templateids
              Mock.world0 Mock.world0 [] eq_refl eq_refl)
    as (r & w2 & ev2 & Hinit & _ & _ & _ & _ & Htotal & _).
  destruct (Htotal mock_never_raises) as [-> ->].
  exists w2. rewrite Hinit. reflexivity.
Defined.

(** ** Packaging *)

Lemma quiet_not_packaging (e : Event) : quiet e -> packaging_call e = false.
Proof. destruct e; simpl; congruence. Qed.

Lemma Forall_quiet_not_packaging (evs : list Event) :
  Forall quiet evs -> Forall (fun e => packaging_call e = false) evs.
Proof. intros H. eapply Forall_impl; [|exact H]. apply quiet_not_packaging. Qed.

Lemma prefix_of_In {A} (l1 l2 : list A) (x : A) :
  prefix_of l1 l2 -> In x l1 -> In x l2.
Proof. intros (rest & ->) H. apply in_or_app. now left. Qed.

Lemma prefix_of_Forall {A} (P : A -> Prop) (l1 l2 : list A) :
  prefix_of l1 l2 -> Forall P l2 -> Forall P l1.
Proof. intros (rest & ->) H. now apply Forall_app in H. Qed.

(** The run of the constructor, by cases on what resolving gives. *)
Lemma __init___cases (E : Collaborators) (self : QuickModel) (w : World E) :
  (exists e w1 ev1,
      resolve E self w = (Raise e, w1, ev1)
      /\ __init__ E self w = (Raise e, w1, ev1))
  \/ (exists self' w1 ev1,
         resolve E self w = (Ok self', w1, ev1)
         /\ truthy (templateids self') = false
         /\ __init__ E self w
            = (Ok self', w1,
               (ev1 ++ [ensembler.warn "No templates found. Exiting."])%list))
  \/ (exists self' w1 ev1 r w2 ev2,
         resolve E self w = (Ok self', w1, ev1)
         /\ truthy (templateids self') = true
         /\ for_each E (call E)
              (modeling_sequence self' (targetid self') (templateids self')
                 (loopmodel self') (package_for_fah self') (nfahclones self')) w1
            = (r, w2, ev2)
         /\ __init__ E self w
            = (match r with Ok _ => Ok self' | Raise e => Raise e end,
               w2, (ev1 ++ ev2)%list)).
Proof.
  destruct (resolve E self w) as [[[self'|e] w1] ev1] eqn:Hres.
  - destruct (truthy (templateids self')) eqn:Ht.
    + right; right.
      destruct (__init___models E self self' w w1 ev1 Hres Ht)
        as (r & w2 & ev2 & Hc & Hi).
      exists self', w1, ev1, r, w2, ev2. auto.
    + right; left. exists self', w1, ev1.
      split; [reflexivity|]. split; [exact Ht|].
      now apply __init___no_templates.
  - left. exists e, w1, ev1. split; [reflexivity|].
    unfold __init__. now apply bind_Raise.
Qed.

(** C8: when packaging is requested and no clone count was given, every
    packaging call of the run receives the clone count 1, and a run that
    goes through the modelling sequence ends with that call; when
    packaging is not requested, no packaging call is made. *)
Theorem packaging_clone_count (E : Collaborators) (self : QuickModel)
    (w w' : World E) (r : result QuickModel) (evs : list Event) :
  __init__ E self w = (r, w', evs) ->
  (package_for_fah self = false ->
   Forall (fun e => packaging_call e = false) evs)
  /\ (package_for_fah self = true -> nfahclones self = None ->
      (forall t n, In (ensembler.package_for_fah t n) evs -> n = Some 1%Z)
      /\ (forall self',
            r = Ok self' -> truthy (templateids self') = true ->
            exists before,
              evs = (before ++ [ensembler.package_for_fah (targetid self')
                                  (Some 1%Z)])%list
              /\ Forall (fun e => packaging_call e = false) before)).
Proof.
  intros Hrun.
  destruct (__init___cases E self w)
    as [(e & w1 & ev1 & Hres & Hinit)
       |[(self1 & w1 & ev1 & Hres & Hnone & Hinit)
        |(self1 & w1 & ev1 & r2 & w2 & ev2 & Hres & Hsome & Hcalls & Hinit)]];
    rewrite Hinit in Hrun; injection Hrun as <- <- <-;
    pose proof (resolve_quiet E self w _ _ _ Hres) as Hq1.
  - (* resolving raised *)
    split; [intros _; now apply Forall_quiet_not_packaging|].
    intros _ _. split; [|discriminate].
    intros t n Hin. rewrite Forall_forall in Hq1.
    now specialize (Hq1 _ Hin).
  - (* no template *)
    split.
    { intros _. apply Forall_quiet_not_packaging, Forall_app.
      split; [exact Hq1|now repeat constructor]. }
    intros _ _. split.
    + intros t n Hin. apply in_app_or in Hin as [Hin|[Hin|[]]];
        [|discriminate].
      rewrite Forall_forall in Hq1. now specialize (Hq1 _ Hin).
    + intros self' [= <-]. congruence.
  - (* the modelling sequence *)
    destruct (same_options_fields self self1
                (resolve_same_options E self w _ _ _ Hres))
      as (_ & Hpkg & Hnf & _).
    destruct (calls_in_order E _ _ _ _ _ Hcalls) as (Hpre & Hall & _).
    rewrite Hpkg, Hnf in *.
    split.
    + intros Hfalse. rewrite Hfalse in *.
      apply Forall_app; split; [now apply Forall_quiet_not_packaging|].
      eapply prefix_of_Forall; [exact Hpre|].
      unfold modeling_sequence. destruct (loopmodel self1);
        now repeat constructor.
    + intros Htrue Hnone. rewrite Htrue, Hnone in *. split.
      * intros t n Hin. apply in_app_or in Hin as [Hin|Hin].
        { rewrite Forall_forall in Hq1. now specialize (Hq1 _ Hin). }
        apply (prefix_of_In _ _ _ Hpre) in Hin.
        unfold modeling_sequence in Hin.
        destruct (loopmodel self1); simpl in Hin;
          repeat (destruct Hin as [Hin|Hin]; [congruence|]);
          destruct Hin.
      * intros self' Hr _.
        destruct r2 as [[]|e]; [|discriminate].
        injection Hr as <-.
        rewrite (Hall eq_refl).
        unfold modeling_sequence. cbn [truthy truthy_option negb].
        destruct (loopmodel self1).
        -- eexists (ev1 ++ [_; _; _; _; _; _; _; _])%list.
           split; [now rewrite <- app_assoc|].
           apply Forall_app; split;
             [now apply Forall_quiet_not_packaging|now repeat constructor].
        -- eexists (ev1 ++ [_; _; _; _; _; _; _])%list.
           split; [now rewrite <- app_assoc|].
           apply Forall_app; split;
             [now apply Forall_quiet_not_packaging|now repeat constructor].
Qed.

(** Packaging requested, no clone count: the run ends with the packaging
    call, with one clone. *)
Lemma packaging_clone_count_witness :
  exists before,
    [ensembler.align_targets_and_templates (Some "ABL1") (Some ["T1_A"]);
     ensembler.build_models (Some "ABL1") (Some ["T1_A"]);
     ensembler.cluster_models (Some "ABL1");
     ensembler.refine_implicit_md (Some "ABL1") (Some ["T1_A"]) (picoseconds 100);
     ensembler.solvate_models (Some "ABL1") (Some ["T1_A"]);
     ensembler.determine_nwaters (Some "ABL1") (Some ["T1_A"]);
     ensembler.refine_explicit_md (Some "ABL1") (Some ["T1_A"]) (picoseconds 100);
     ensembler.package_for_fah (Some "ABL1") (Some 1%Z)]
    = (before ++ [ensembler.package_for_fah (Some "ABL1") (Some 1%Z)])%list
    /\ Forall (fun e => packaging_call e = false) before.
Proof.
  destruct (packaging_clone_count Mock.collaborators Mock.with_templateids
              Mock.world0 Mock.world0 (Ok Mock.with_templateids) _ eq_refl)
    as [_ H].
  destruct (H eq_refl eq_refl) as [_ Hlast].
  exact (Hlast Mock.with_templateids eq_refl eq_refl).
Defined.

(** ** No template *)

(** C3: in every run in which the resolved list of template ids is empty
    (or [None]), the constructor emits the warning, returns normally,
    and makes no call of the modelling and refinement sequence: the
    warning is the only thing it does after resolving, and nothing of
    the sequence is called while resolving. *)
Theorem no_templates_warning (E : Collaborators) (self self' : QuickModel)
    (w w1 : World E) (ev1 : list Event) :
  resolve E self w = (Ok self', w1, ev1) ->
  templateids self' = None \/ templateids self' = Some [] ->
  __init__ E self w
  = (Ok self', w1, (ev1 ++ [ensembler.warn "No templates found. Exiting."])%list)
  /\ Forall quiet (ev1 ++ [ensembler.warn "No templates found. Exiting."]).
Proof.
  intros Hres Hempty.
  assert (Hfalsy : truthy (templateids self') = false).
  { destruct Hempty as [-> | ->]; reflexivity. }
  split.
  - now apply __init___no_templates.
  - apply Forall_app. split.
    + exact (resolve_quiet E self w _ _ _ Hres).
    + now repeat constructor.
Qed.

(** No template of the report exceeds 99: the constructor aligns the
    target against all templates, selects nothing, warns and returns. *)
Lemma no_templates_warning_witness :
  __init__ Mock.collaborators (Mock.with_cutoff 99%float) Mock.world0
  = (Ok (set_templateids (Mock.with_cutoff 99%float) (Some [])), Mock.world0,
     [ensembler.align_targets_and_templates (Some "ABL1") None;
      ensembler.warn "No templates found. Exiting."]).
Proof.
  apply (no_templates_warning Mock.collaborators (Mock.with_cutoff 99%float)
           (set_templateids (Mock.with_cutoff 99%float) (Some []))
           Mock.world0 Mock.world0
           [ensembler.align_targets_and_templates (Some "ABL1") None]).
  - vm_compute. reflexivity.
  - right. reflexivity.
Defined.

(** ** The target *)

Lemma resolve_after_project (E : Collaborators) (self : QuickModel)
    (w0 w : World E) (ev0 : list Event) :
  ensure_project E w0 = (Ok tt, w, ev0) ->
  resolve E self w0
  = (let '(r, w2, ev2) :=
       (check_target_arguments E self ;;
        self1 <- resolve_targetid E self ;;
        existing_templates <- find_existing_templates E ;;
        resolve_templateids E self1 existing_templates) w in
     (r, w2, (ev0 ++ ev2)%list)).
Proof. intros H. unfold resolve. now rewrite (bind_Ok E _ _ w0 w tt ev0 H). Qed.

Lemma __init___resolve_raises (E : Collaborators) (self : QuickModel)
    (w w1 : World E) (e : exn) (ev1 : list Event) :
  resolve E self w = (Raise e, w1, ev1) ->
  __init__ E self w = (Raise e, w1, ev1).
Proof. intros H. unfold __init__. now apply bind_Raise. Qed.

Lemma check_target_arguments_run (E : Collaborators) (self : QuickModel)
    (w : World E) :
  check_target_arguments E self w
  = if Bool.eqb (truthy (targetid self))
                (truthy (target_uniprot_entry_name self))
    then (Raise (Exception
                   "Must specify either targetid or target_uniprot_entry_name."),
          w, [])
    else (Ok tt, w, []).
Proof.
  unfold check_target_arguments.
  now destruct (truthy (targetid self)),
               (truthy (target_uniprot_entry_name self)).
Qed.

(** What the check of lines 53-54 decides, in a run that has reached
    it. *)
Lemma target_arguments_checked (E : Collaborators) (self : QuickModel)
    (w0 w : World E) (ev0 : list Event) :
  ensure_project E w0 = (Ok tt, w, ev0) ->
  (truthy (targetid self) = truthy (target_uniprot_entry_name self) ->
   __init__ E self w0
   = (Raise (Exception
               "Must specify either targetid or target_uniprot_entry_name."),
      w, ev0))
  /\ (truthy (targetid self) <> truthy (target_uniprot_entry_name self) ->
      resolve E self w0
      = (let '(r, w2, ev2) :=
           (self1 <- resolve_targetid E self ;;
            existing_templates <- find_existing_templates E ;;
            resolve_templateids E self1 existing_templates) w in
         (r, w2, (ev0 ++ ev2)%list))).
Proof.
  intros Hproject.
  pose proof (resolve_after_project E self w0 w ev0 Hproject) as Hres.
  pose proof (check_target_arguments_run E self w) as Hcheck.
  unfold bind at 1 in Hres.
  destruct (Bool.eqb (truthy (targetid self))
                     (truthy (target_uniprot_entry_name self))) eqn:Heq.
  - apply Bool.eqb_prop in Heq. rewrite Hcheck in Hres.
    split.
    + intros _. apply __init___resolve_raises.
      rewrite Hres. now rewrite app_nil_r.
    + intros Hne. contradiction.
  - apply Bool.eqb_false_iff in Heq. rewrite Hcheck in Hres.
    split.
    + intros Hsame. contradiction.
    + intros _. rewrite Hres.
      now destruct (bind (resolve_targetid E self) _ w) as [[r w2] ev2].
Qed.

(** C1: once the project directory is there, the constructor raises the
    configuration error if the target id and the entry name are both
    falsy ([None] or the empty string) or both non-empty; it goes past
    the check, to the resolution of the target, exactly when one and
    only one of them is a non-empty string. *)
Theorem target_arguments_exclusive (E : Collaborators) (self : QuickModel)
    (w0 w : World E) (ev0 : list Event) :
  ensure_project E w0 = (Ok tt, w, ev0) ->
  (truthy (targetid self) = truthy (target_uniprot_entry_name self) ->
   __init__ E self w0
   = (Raise (Exception
               "Must specify either targetid or target_uniprot_entry_name."),
      w, ev0))
  /\ (truthy (targetid self) <> truthy (target_uniprot_entry_name self) ->
      resolve E self w0
      = (let '(r, w2, ev2) :=
           (self1 <- resolve_targetid E self ;;
            existing_templates <- find_existing_templates E ;;
            resolve_templateids E self1 existing_templates) w in
         (r, w2, (ev0 ++ ev2)%list)))
  /\ (check_target_arguments E self w = (Ok tt, w, [])
      <-> truthy (targetid self) <> truthy (target_uniprot_entry_name self)).
Proof.
  intros Hproject.
  destruct (target_arguments_checked E self w0 w ev0 Hproject)
    as (Hsame & Hdiff).
  split; [exact Hsame|]. split; [exact Hdiff|].
  rewrite check_target_arguments_run.
  destruct (Bool.eqb (truthy (targetid self))
                     (truthy (target_uniprot_entry_name self))) eqn:Heq.
  - apply Bool.eqb_prop in Heq.
    split; [discriminate|intros Hne; contradiction].
  - apply Bool.eqb_false_iff in Heq.
    split; [intros _; exact Heq|reflexivity].
Qed.

(** Neither a target id nor an entry name: the configuration error. *)
Lemma target_arguments_exclusive_witness :
  __init__ Mock.collaborators defaults Mock.world0
  = (Raise (Exception
              "Must specify either targetid or target_uniprot_entry_name."),
     Mock.world0, []).
Proof.
  apply (target_arguments_exclusive Mock.collaborators defaults
           Mock.world0 Mock.world0 [] eq_refl).
  reflexivity.
Defined.

(** A target id that is given but empty, together with an entry name:
    both are present, and the constructor does not raise; it discovers
    the target and models it. *)
Lemma present_empty_targetid_accepted :
  targetid Mock.empty_targetid <> None
  /\ target_uniprot_entry_name Mock.empty_targetid <> None
  /\ __init__ Mock.collaborators Mock.empty_targetid
       (Mock.world Mock.dir_with_target [])
     = (Ok (set_targetid Mock.empty_targetid (Some "ABL1_HUMAN_D0")),
        Mock.world Mock.dir_with_target [],
        [ensembler.GatherTargetsFromUniProt "mnemonic:ABL1_HUMAN"
           (Some "^Pkinase");
         ensembler.model_template_loops (Some ["T1_A"]);
         ensembler.align_targets_and_templates (Some "ABL1_HUMAN_D0")
           (Some ["T1_A"]);
         ensembler.build_models (Some "ABL1_HUMAN_D0") (Some ["T1_A"]);
         ensembler.cluster_models (Some "ABL1_HUMAN_D0");
         ensembler.refine_implicit_md (Some "ABL1_HUMAN_D0") (Some ["T1_A"])
           (picoseconds 100);
         ensembler.solvate_models (Some "ABL1_HUMAN_D0") (Some ["T1_A"]);
         ensembler.determine_nwaters (Some "ABL1_HUMAN_D0") (Some ["T1_A"]);
         ensembler.refine_explicit_md (Some "ABL1_HUMAN_D0") (Some ["T1_A"])
           (picoseconds 100)]).
Proof.
  split; [discriminate|]. split; [discriminate|].
  vm_compute. reflexivity.
Qed.

(** With no target id, an entry name and a pattern, the target is
    discovered. *)
Lemma resolve_targetid_discovers (E : Collaborators) (self : QuickModel)
    (w : World E) (name pattern : string) :
  truthy (targetid self) = false ->
  target_uniprot_entry_name self = Some name -> name <> "" ->
  uniprot_domain_regex self = Some pattern -> pattern <> "" ->
  let discovery :=
    ensembler.GatherTargetsFromUniProt ("mnemonic:" ++ name) (Some pattern) in
  resolve_targetid E self w
  = match exec E discovery (project E w) with
    | Raise x => (Raise x, w, [discovery])
    | Ok p =>
        let w1 := {| project := p; stdin := stdin E w |} in
        match gathered_targets E p with
        | [] => (Raise IndexError, w1, [discovery])
        | first :: _ => (Ok (set_targetid self (Some (id first))), w1, [discovery])
        end
    end.
Proof.
  intros Htid Hname Hne Hpat Hpe discovery.
  unfold resolve_targetid. rewrite Htid, Hname, Hpat.
  destruct name as [|c name]; [contradiction|].
  destruct pattern as [|d pattern]; [contradiction|].
  cbn [truthy truthy_option truthy_str negb orb fmt_s].
  unfold bind, call, ask, lift, ret.
  fold discovery.
  destruct (exec E discovery (project E w)) as [p|x]; [|reflexivity].
  cbn [project stdin].
  destruct (gathered_targets E p) as [|first others]; reflexivity.
Qed.

(** C5: once the project directory is there, for every configuration
    with a falsy target id: if the pattern is [None] or empty, the
    constructor raises a configuration error; if the entry name and the
    pattern are non-empty strings, target discovery is called with the
    query [mnemonic:<entry name>] and the pattern, and when it returns a
    non-empty list of targets the target id becomes the id of the first
    of them. *)
Theorem target_discovery (E : Collaborators) (self : QuickModel)
    (w0 w : World E) (ev0 : list Event) :
  ensure_project E w0 = (Ok tt, w, ev0) ->
  truthy (targetid self) = false ->
  (truthy (uniprot_domain_regex self) = false ->
   exists msg, __init__ E self w0 = (Raise (Exception msg), w, ev0))
  /\ (forall name pattern,
        target_uniprot_entry_name self = Some name -> name <> "" ->
        uniprot_domain_regex self = Some pattern -> pattern <> "" ->
        let discovery :=
          ensembler.GatherTargetsFromUniProt ("mnemonic:" ++ name)
            (Some pattern) in
        (exists r w1 ev1,
            resolve E self w0 = (r, w1, (ev0 ++ discovery :: ev1)%list))
        /\ (forall p first others,
              exec E discovery (project E w) = Ok p ->
              gathered_targets E p = first :: others ->
              resolve_targetid E self w
              = (Ok (set_targetid self (Some (id first))),
                 {| project := p; stdin := stdin E w |}, [discovery]))).
Proof.
  intros Hproject Htid.
  destruct (target_arguments_checked E self w0 w ev0 Hproject)
    as (Hsame & Hdiff).
  split.
  - intros Hpat.
    destruct (truthy (target_uniprot_entry_name self)) eqn:Hname.
    + (* the check passes, the resolution of the target raises *)
      eexists. apply __init___resolve_raises.
      rewrite Hdiff by congruence.
      unfold bind at 1. unfold resolve_targetid.
      rewrite Htid, Hname, Hpat. cbn [negb orb]. unfold raise.
      now rewrite app_nil_r.
    + eexists. apply Hsame. congruence.
  - intros name pattern Hname Hne Hpat Hpe discovery.
    pose proof (resolve_targetid_discovers E self w name pattern
                  Htid Hname Hne Hpat Hpe) as Hrun.
    cbv zeta in Hrun. fold discovery in Hrun.
    split.
    + rewrite Hdiff.
      2:{ rewrite Htid, Hname. now destruct name. }
      unfold bind at 1. rewrite Hrun.
      destruct (exec E discovery (project E w)) as [p|x].
      * destruct (gathered_targets E p) as [|first others].
        -- now eexists _, _, [].
        -- destruct (bind (find_existing_templates E) _ _) as [[r w2] ev2].
           now eexists _, _, ev2.
      * now eexists _, _, [].
    + intros p first others Hexec Htargets.
      now rewrite Hrun, Hexec, Htargets.
Qed.

(** The entry name ABL1_HUMAN and a pattern: discovery is called, and the
    target id is that of the first target found. *)
Lemma target_discovery_witness :
  resolve_targetid Mock.collaborators (Mock.with_entry_name (Some "^Pkinase"))
    (Mock.world Mock.dir_with_target [])
  = (Ok (set_targetid (Mock.with_entry_name (Some "^Pkinase"))
           (Some "ABL1_HUMAN_D0")),
     Mock.world Mock.dir_with_target [],
     [ensembler.GatherTargetsFromUniProt "mnemonic:ABL1_HUMAN" (Some "^Pkinase")]).
Proof.
  destruct (target_discovery Mock.collaborators
              (Mock.with_entry_name (Some "^Pkinase"))
              (Mock.world Mock.dir_with_target [])
              (Mock.world Mock.dir_with_target []) [] eq_refl eq_refl)
    as [_ H].
  destruct (H "ABL1_HUMAN" "^Pkinase" eq_refl ltac:(discriminate)
              eq_refl ltac:(discriminate)) as [_ Hfirst].
  exact (Hfirst Mock.dir_with_target
           {| id := "ABL1_HUMAN_D0"; seq := "" |} [] eq_refl eq_refl).
Defined.

(** A pattern that is given but empty: it is not missing, yet no
    discovery is run and the constructor raises the configuration
    error. *)
Lemma present_empty_pattern_rejected :
  targetid (Mock.with_entry_name (Some "")) = None
  /\ uniprot_domain_regex (Mock.with_entry_name (Some "")) <> None
  /\ __init__ Mock.collaborators (Mock.with_entry_name (Some ""))
       (Mock.world Mock.dir_with_target [])
     = (Raise (Exception
                 "If no targetid is passed, must specify target_uniprot_entry_name and uniprot_domain_regex."),
        Mock.world Mock.dir_with_target [], []).
Proof.
  split; [reflexivity|]. split; [discriminate|].
  vm_compute. reflexivity.
Qed.

(** ** The templates *)

Lemma find_existing_templates_run (E : Collaborators) (w : World E) :
  find_existing_templates E w
  = if path_exists E
         (path_join [dirnames_templates E; "templates-resolved-seq.fa"])
         (project E w)
    then match get_templates_resolved_seq E (project E w) with
         | Ok [] => (Ok false, w, [])
         | Ok (_ :: _) => (Ok true, w, [])
         | Raise e => (Raise e, w, [])
         end
    else (Ok false, w, []).
Proof.
  unfold find_existing_templates, bind, ask, query, ret.
  destruct (path_exists E _ (project E w)); [|reflexivity].
  destruct (get_templates_resolved_seq E (project E w)) as [[|t l]|e];
    reflexivity.
Qed.

Lemma resolve_targetid_templateids (E : Collaborators) (self : QuickModel) :
  returns E (fun self1 => templateids self1 = templateids self)
    (resolve_targetid E self).
Proof.
  unfold resolve_targetid.
  destruct (negb (truthy (targetid self))); [|now apply returns_ret].
  destruct (orb _ _); [apply returns_raise|].
  eapply returns_bind; [apply returns_any|intros _ _].
  eapply returns_bind; [apply returns_any|intros targets _].
  eapply returns_bind; [apply returns_any|intros first _].
  now apply returns_ret.
Qed.

(** The run of the constructor up to the resolution of the templates. *)
Lemma resolve_at_templates (E : Collaborators) (self self1 : QuickModel)
    (w0 w1 w2 w3 : World E) (ev1 ev2 ev3 : list Event) (existing : bool) :
  ensure_project E w0 = (Ok tt, w1, ev1) ->
  truthy (targetid self) <> truthy (target_uniprot_entry_name self) ->
  resolve_targetid E self w1 = (Ok self1, w2, ev2) ->
  find_existing_templates E w2 = (Ok existing, w3, ev3) ->
  resolve E self w0
  = (let '(r, w4, ev4) := resolve_templateids E self1 existing w3 in
     (r, w4, (ev1 ++ ev2 ++ ev3 ++ ev4)%list)).
Proof.
  intros Hproject Hcheck Htarget Hexisting.
  destruct (target_arguments_checked E self w0 w1 ev1 Hproject)
    as (_ & Hdiff).
  rewrite (Hdiff Hcheck).
  rewrite (bind_Ok E _ _ w1 w2 self1 ev2 Htarget).
  rewrite (bind_Ok E _ _ w2 w3 existing ev3 Hexisting).
  now destruct (resolve_templateids E self1 existing w3) as [[r w4] ev4].
Qed.

(** C6: for every configuration with a non-empty list of template ids,
    in a run that reaches the resolution of the templates: if no
    existing templates were found (no file of resolved templates, or an
    empty one), the constructor raises the configuration error; if some
    were found, the resolution does nothing (no discovery, no alignment,
    no selection: it emits no event) and the modelling sequence is run
    on the ids as they were given. *)
Theorem explicit_templateids_used_as_is (E : Collaborators)
    (self self1 : QuickModel) (w0 w1 w2 w3 : World E)
    (ev1 ev2 ev3 : list Event) (existing : bool) :
  truthy (templateids self) = true ->
  ensure_project E w0 = (Ok tt, w1, ev1) ->
  truthy (targetid self) <> truthy (target_uniprot_entry_name self) ->
  resolve_targetid E self w1 = (Ok self1, w2, ev2) ->
  find_existing_templates E w2 = (Ok existing, w3, ev3) ->
  (existing = true
   <-> path_exists E
         (path_join [dirnames_templates E; "templates-resolved-seq.fa"])
         (project E w2) = true
       /\ exists t l, get_templates_resolved_seq E (project E w2) = Ok (t :: l))
  /\ (existing = false ->
      __init__ E self w0
      = (Raise (Exception "No existing templates found."), w3,
         (ev1 ++ ev2)%list))
  /\ (existing = true ->
      resolve E self w0 = (Ok self1, w3, (ev1 ++ ev2)%list)
      /\ exists r w4 ev4,
          __init__ E self w0 = (r, w4, (ev1 ++ ev2 ++ ev4)%list)
          /\ prefix_of ev4
               (modeling_sequence self1 (targetid self1) (templateids self)
                  (loopmodel self) (package_for_fah self) (nfahclones self))).
Proof.
  intros Hids Hproject Hcheck Htarget Hexisting.
  pose proof (resolve_at_templates E self self1 w0 w1 w2 w3 ev1 ev2 ev3
                existing Hproject Hcheck Htarget Hexisting) as Hres.
  pose proof (resolve_targetid_templateids E self _ _ _ _ Htarget) as Hsame.
  cbv beta in Hsame.
  assert (Hev3 : ev3 = [] /\ w3 = w2).
  { rewrite find_existing_templates_run in Hexisting.
    destruct (path_exists E _ (project E w2)).
    - destruct (get_templates_resolved_seq E (project E w2)) as [[|t l]|e];
        now inversion Hexisting.
    - now inversion Hexisting. }
  destruct Hev3 as [-> ->].
  unfold resolve_templateids in Hres. rewrite Hsame, Hids in Hres.
  split; [|split].
  - rewrite find_existing_templates_run in Hexisting.
    destruct (path_exists E _ (project E w2)).
    + destruct (get_templates_resolved_seq E (project E w2)) as [[|t l]|e];
        inversion Hexisting; subst.
      * split; [discriminate|]. now intros (_ & t & l & [=]).
      * split; [|reflexivity]. intros _. split; [reflexivity|]. now exists t, l.
    + inversion Hexisting; subst.
      split; [discriminate|]. now intros ([=] & _).
  - intros ->. apply __init___resolve_raises.
    rewrite Hres. cbn [negb]. unfold raise. now rewrite !app_nil_r.
  - intros ->. cbn [negb] in Hres. unfold ret in Hres.
    rewrite !app_nil_r in Hres.
    split; [exact Hres|].
    assert (Htruthy : truthy (templateids self1) = true) by now rewrite Hsame.
    destruct (__init___models E self self1 w0 w2 _ Hres Htruthy)
      as (r & w4 & ev4 & Hcalls & Hinit).
    destruct (calls_in_order E _ _ _ _ _ Hcalls) as (Hpre & _ & _).
    destruct (same_options_fields self self1
                (resolve_same_options E self w0 _ _ _ Hres))
      as (Hl & Hp & Hn & _).
    rewrite Hsame, Hl, Hp, Hn in Hpre.
    eexists _, w4, ev4. split; [|exact Hpre].
    rewrite Hinit. now rewrite <- app_assoc.
Qed.

(** Template ids given, no file of resolved templates: the
    configuration error. *)
Lemma explicit_templateids_used_as_is_witness :
  __init__ Mock.collaborators Mock.with_templateids
    (Mock.world Mock.dir_no_templates [])
  = (Raise (Exception "No existing templates found."),
     Mock.world Mock.dir_no_templates [], []).
Proof.
  destruct (explicit_templateids_used_as_is Mock.collaborators
              Mock.with_templateids Mock.with_templateids
              (Mock.world Mock.dir_no_templates [])
              (Mock.world Mock.dir_no_templates [])
              (Mock.world Mock.dir_no_templates [])
              (Mock.world Mock.dir_no_templates [])
              [] [] [] false eq_refl eq_refl ltac:(discriminate)
              eq_refl eq_refl)
    as (_ & Hnone & _).
  exact (Hnone eq_refl).
Defined.

(** Template ids given as the empty list, together with a PDB id, and no
    existing templates: the ids are present, yet the constructor does
    not raise; it gathers templates from the PDB id and models them. *)
Lemma present_empty_templateids_not_checked :
  templateids Mock.empty_templateids <> None
  /\ find_existing_templates Mock.collaborators
       (Mock.world Mock.dir_no_templates [])
     = (Ok false, Mock.world Mock.dir_no_templates [], [])
  /\ exists w',
      __init__ Mock.collaborators Mock.empty_templateids
        (Mock.world Mock.dir_no_templates [])
      = (Ok (set_templateids Mock.empty_templateids (Some ["1OPL_A"])), w',
         [ensembler.gather_templates_from_pdb (Some ["1OPL"]) None None None;
          ensembler.model_template_loops (Some ["1OPL_A"]);
          ensembler.align_targets_and_templates (Some "ABL1") (Some ["1OPL_A"]);
          ensembler.build_models (Some "ABL1") (Some ["1OPL_A"]);
          ensembler.cluster_models (Some "ABL1");
          ensembler.refine_implicit_md (Some "ABL1") (Some ["1OPL_A"])
            (picoseconds 100);
          ensembler.solvate_models (Some "ABL1") (Some ["1OPL_A"]);
          ensembler.determine_nwaters (Some "ABL1") (Some ["1OPL_A"]);
          ensembler.refine_explicit_md (Some "ABL1") (Some ["1OPL_A"])
            (picoseconds 100)]).
Proof.
  split; [discriminate|]. split; [reflexivity|].
  eexists. vm_compute. reflexivity.
Qed.

(** ** The four paths *)

Lemma chosen_path_explicit (self : QuickModel) :
  chosen_path self = explicit_ids <-> truthy (templateids self) = true.
Proof.
  unfold chosen_path.
  destruct (templateids self) as [[|t l]|], (pdbids self) as [[|p q]|],
    (template_uniprot_query self) as [[|c s]|];
    cbv [truthy truthy_option truthy_list]; split; congruence.
Qed.

Lemma select_after_alignment (E : Collaborators) (self : QuickModel)
    (w : World E) r w' evs :
  (_align_all_templates E (targetid self) ;;
   selected <- _select_templates_based_on_seqid_cutoff E (targetid self)
                 (model_seqid_cutoff self) ;;
   ret (set_templateids self (Some selected))) w = (r, w', evs) ->
  exists more,
    evs = ensembler.align_targets_and_templates (targetid self) None :: more
    /\ Forall (fun e => console_event e = true) more.
Proof.
  unfold bind at 1. unfold _align_all_templates, call.
  destruct (exec E _ (project E w)) as [p|x].
  - destruct (bind _ _ _) as [[r2 w2] ev2] eqn:Hsel.
    intros [= <- <- <-]. exists ev2. split; [reflexivity|].
    revert Hsel. apply emits_bind; [apply _select_console|].
    intros l. apply emits_ret.
  - intros [= <- <- <-]. now exists [].
Qed.




(** ** An empty list of template ids *)

Lemma resolve_targetid_set_templateids (E : Collaborators) (self : QuickModel)
    (v : option (list string)) (w : World E) :
  resolve_targetid E (set_templateids self v) w
  = match resolve_targetid E self w with
    | (Ok self1, w1, ev1) => (Ok (set_templateids self1 v), w1, ev1)
    | (Raise e, w1, ev1) => (Raise e, w1, ev1)
    end.
Proof.
  unfold resolve_targetid. cbn [set_templateids targetid
    target_uniprot_entry_name uniprot_domain_regex].
  destruct (negb (truthy (targetid self))); [|reflexivity].
  destruct (orb _ _); [reflexivity|].
  unfold bind, call, ask, lift, ret.
  destruct (exec E _ (project E w)) as [p|x]; [|reflexivity].
  cbn [project].
  destruct (gathered_targets E p) as [|first others]; reflexivity.
Qed.

Lemma resolve_templateids_empty_list (E : Collaborators) (self : QuickModel)
    (existing : bool) (w : World E) :
  resolve_templateids E (set_templateids self (Some [])) existing w
  = resolve_templateids E (set_templateids self None) existing w.
Proof. reflexivity. Qed.

Lemma bind_ext (E : Collaborators) {A B} (c : M E A) (k1 k2 : A -> M E B)
    (w : World E) :
  (forall a w1, k1 a w1 = k2 a w1) -> bind c k1 w = bind c k2 w.
Proof.
  intros H. unfold bind.
  destruct (c w) as [[[a|e] w1] ev1]; [|reflexivity].
  now rewrite H.
Qed.

Lemma resolve_empty_list (E : Collaborators) (self : QuickModel) (w : World E) :
  resolve E (set_templateids self (Some [])) w
  = resolve E (set_templateids self None) w.
Proof.
  unfold resolve.
  apply bind_ext; intros _ w1.
  apply bind_ext; intros _ w2.
  unfold bind at 1 3.
  rewrite !resolve_targetid_set_templateids.
  destruct (resolve_targetid E self w2) as [[[self1|e] w3] ev3]; [|reflexivity].
  rewrite (bind_ext E (find_existing_templates E)
             (fun ex => resolve_templateids E (set_templateids self1 (Some [])) ex)
             (fun ex => resolve_templateids E (set_templateids self1 None) ex) w3);
    [reflexivity|].
  intros ex w4. apply resolve_templateids_empty_list.
Qed.

(** With the empty list as template ids, the resolution of the templates
    is what is left of the chain of lines 74-89 once its first branch is
    skipped. *)
Lemma resolve_templateids_falls_through (E : Collaborators)
    (self : QuickModel) (existing : bool) (w : World E) :
  resolve_templateids E (set_templateids self (Some [])) existing w
  = (if truthy (pdbids self)
     then
       call E (ensembler.gather_templates_from_pdb (pdbids self)
                 (uniprot_domain_regex self) (chainids self)
                 (structure_dirs self)) ;;
       templates_resolved_seq <- query E (get_templates_resolved_seq E) ;;
       ret (set_templateids self (Some (map id templates_resolved_seq)))
     else if truthy (template_uniprot_query self)
     then
       call E (ensembler.gather_templates_from_uniprot
                 (template_uniprot_query self) (uniprot_domain_regex self)
                 (structure_dirs self)) ;;
       _align_all_templates E (targetid self) ;;
       selected <- _select_templates_based_on_seqid_cutoff E (targetid self)
                     (model_seqid_cutoff self) ;;
       ret (set_templateids self (Some selected))
     else if negb existing
     then raise (Exception "No existing templates found.")
     else
       _align_all_templates E (targetid self) ;;
       selected <- _select_templates_based_on_seqid_cutoff E (targetid self)
                     (model_seqid_cutoff self) ;;
       ret (set_templateids self (Some selected))) w.
Proof. reflexivity. Qed.

(** C10: an empty list given as the template ids is treated exactly as
    if no template ids had been given: the constructor does the same,
    returns the same and leaves the same world; the path of the explicit
    ids, with its check of the existing templates, is not taken, and the
    resolution falls through to the rest of the chain: it is the code of
    the structure-source path when PDB ids are given, else of the query
    path when a query is given, else of the fallback.  In its events:
    with PDB ids the one call is the discovery of templates from them,
    even when no existing templates were found; with a query (and no PDB
    ids) the first call is the discovery from the query; with neither,
    the error of the fallback when no existing templates were found, and
    otherwise the alignment against all templates followed by the
    selection. *)
Theorem empty_templateids_as_absent (E : Collaborators) (self : QuickModel)
    (existing : bool) (w : World E) :
  __init__ E (set_templateids self (Some [])) w
  = __init__ E (set_templateids self None) w
  /\ resolve_templateids E (set_templateids self (Some [])) existing w
     = resolve_templateids E (set_templateids self None) existing w
  /\ chosen_path (set_templateids self (Some [])) <> explicit_ids
  /\ chosen_path (set_templateids self (Some []))
     = chosen_path (set_templateids self None)
  /\ resolve_templateids E (set_templateids self (Some [])) existing w
     = (if truthy (pdbids self)
        then
          call E (ensembler.gather_templates_from_pdb (pdbids self)
                    (uniprot_domain_regex self) (chainids self)
                    (structure_dirs self)) ;;
          templates_resolved_seq <- query E (get_templates_resolved_seq E) ;;
          ret (set_templateids self (Some (map id templates_resolved_seq)))
        else if truthy (template_uniprot_query self)
        then
          call E (ensembler.gather_templates_from_uniprot
                    (template_uniprot_query self) (uniprot_domain_regex self)
                    (structure_dirs self)) ;;
          _align_all_templates E (targetid self) ;;
          selected <- _select_templates_based_on_seqid_cutoff E (targetid self)
                        (model_seqid_cutoff self) ;;
          ret (set_templateids self (Some selected))
        else if negb existing
        then raise (Exception "No existing templates found.")
        else
          _align_all_templates E (targetid self) ;;
          selected <- _select_templates_based_on_seqid_cutoff E (targetid self)
                        (model_seqid_cutoff self) ;;
          ret (set_templateids self (Some selected))) w
  /\ (forall r w' evs,
        resolve_templateids E (set_templateids self (Some [])) existing w
        = (r, w', evs) ->
        (truthy (pdbids self) = true ->
         evs = [ensembler.gather_templates_from_pdb (pdbids self)
                  (uniprot_domain_regex self) (chainids self)
                  (structure_dirs self)])
        /\ (truthy (pdbids self) = false ->
            truthy (template_uniprot_query self) = true ->
            exists more,
              evs = ensembler.gather_templates_from_uniprot
                      (template_uniprot_query self) (uniprot_domain_regex self)
                      (structure_dirs self) :: more)
        /\ (truthy (pdbids self) = false ->
            truthy (template_uniprot_query self) = false ->
            if existing
            then exists console,
                evs = ensembler.align_targets_and_templates (targetid self) None
                      :: console
                /\ Forall (fun e => console_event e = true) console
            else r = Raise (Exception "No existing templates found.")
                 /\ evs = [])).
Proof.
  split; [|split; [|split; [|split; [|split]]]].
  - unfold __init__, bind at 1 3. now rewrite resolve_empty_list.
  - apply resolve_templateids_empty_list.
  - rewrite chosen_path_explicit. discriminate.
  - reflexivity.
  - apply resolve_templateids_falls_through.
  - intros r w' evs Hrun.
    rewrite resolve_templateids_falls_through in Hrun.
    destruct (truthy (pdbids self)) eqn:Hpdb.
    + split; [intros _|split; intros Hf; discriminate Hf].
      revert Hrun. unfold bind, call, query, ret.
      destruct (exec E _ (project E w)) as [p'|x];
        [cbn [project]; destruct (get_templates_resolved_seq E p')|];
        now intros [= <- <- <-].
    + destruct (truthy (template_uniprot_query self)) eqn:Hquery.
      * split; [intros Hf; discriminate Hf|].
        split; [intros _ _|intros _ Hf; discriminate Hf].
        revert Hrun. unfold bind at 1. unfold call at 1.
        destruct (exec E _ (project E w)) as [p'|x].
        -- destruct (bind _ _ _) as [[r2 w2] ev2].
           intros [= <- <- <-]. now eexists.
        -- intros [= <- <- <-]. now eexists.
      * split; [intros Hf; discriminate Hf|].
        split; [intros _ Hf; discriminate Hf|intros _ _].
        destruct existing; cbn [negb] in Hrun.
        -- exact (select_after_alignment E self w r w' evs Hrun).
        -- unfold raise in Hrun. injection Hrun as <- <- <-. now split.
Qed.

(** The empty list as template ids, a PDB id, and no existing templates:
    the templates are discovered from the PDB id. *)
Lemma empty_templateids_as_absent_witness :
  [ensembler.gather_templates_from_pdb (Some ["1OPL"]) None None None]
  = [ensembler.gather_templates_from_pdb (pdbids Mock.empty_templateids)
       (uniprot_domain_regex Mock.empty_templateids)
       (chainids Mock.empty_templateids)
       (structure_dirs Mock.empty_templateids)].
Proof.
  assert (Hrun : resolve_templateids Mock.collaborators
                   (set_templateids Mock.empty_templateids (Some [])) false
                   (Mock.world Mock.dir_no_templates [])
                 = (Ok (set_templateids Mock.empty_templateids
                          (Some ["1OPL_A"])),
                    Mock.world
                      {| Mock.toplevel := true;
                         Mock.uniprot_targets :=
                           [{| id := "ABL1_HUMAN_D0"; seq := "" |}];
                         Mock.templates_fa :=
                           Some [Mock.template_of_pdbid "1OPL"];
                         Mock.report := Some Mock.report3 |} [],
                    [ensembler.gather_templates_from_pdb (Some ["1OPL"])
                       None None None]))
    by (vm_compute; reflexivity).
  destruct (empty_templateids_as_absent Mock.collaborators
              Mock.empty_templateids false
              (Mock.world Mock.dir_no_templates []))
    as (_ & _ & _ & _ & _ & Hevents).
  destruct (Hevents
              (Ok (set_templateids Mock.empty_templateids (Some ["1OPL_A"])))
              (Mock.world
                 {| Mock.toplevel := true;
                    Mock.uniprot_targets :=
                      [{| id := "ABL1_HUMAN_D0"; seq := "" |}];
                    Mock.templates_fa := Some [Mock.template_of_pdbid "1OPL"];
                    Mock.report := Some Mock.report3 |} [])
              [ensembler.gather_templates_from_pdb (Some ["1OPL"])
                 None None None]
              Hrun) as (Hpdb & _ & _).
  exact (Hpdb eq_refl).
Defined.

(** * Beyond the specification *)

(** ** A report that does not parse *)

Lemma templateids_blank_line :
  forall lines : list string,
    (exists line, In line lines /\ split line = []) ->
    comprehension item0 (map split lines) = Raise IndexError.
Proof.
  induction lines as [|l lines IH]; intros (line & Hin & Hblank).
  - destruct Hin.
  - simpl. destruct (split l) as [|x fields] eqn:Hl; [reflexivity|].
    simpl. rewrite IH; [reflexivity|].
    destruct Hin as [-> | Hin]; [congruence|].
    now exists line.
Qed.

Lemma templateids_no_blank_line :
  forall lines : list string,
    (forall line, In line lines -> split line <> []) ->
    exists ids, comprehension item0 (map split lines) = Ok ids.
Proof.
  induction lines as [|l lines IH]; intros Hno.
  - now exists [].
  - simpl. destruct (split l) as [|x fields] eqn:Hl.
    + exfalso. apply (Hno l); [now left|exact Hl].
    + destruct IH as (ids & ->); [intros line Hin; apply Hno; now right|].
      now exists (x :: ids).
Qed.

Lemma rows_not_blank (E : Collaborators) (good : list string)
    (report : list (string * PrimFloat.float)) :
  Forall2 (line_is_row E) good report ->
  forall line, In line good -> split line <> [].
Proof.
  induction 1 as [|l row good report (field & more & Hs & _) _ IH];
    intros line Hin.
  - destruct Hin.
  - destruct Hin as [<- | Hin]; [congruence|now apply IH].
Qed.

(** X1: a blank line anywhere in the report makes the selection raise
    [IndexError], whether a cutoff is given or not and whatever the other
    lines hold, before anything is printed or asked. *)
Theorem blank_report_line_IndexError (E : Collaborators) (tid : string)
    (seqid_cutoff : option PrimFloat.float) (w : World E)
    (lines : list string) :
  readlines E (path_join [dirnames_models E; tid; "sequence-identities.txt"])
    (project E w) = Ok lines ->
  (exists line, In line lines /\ split line = []) ->
  _select_templates_based_on_seqid_cutoff E (Some tid) seqid_cutoff w
  = (Raise IndexError, w, []).
Proof.
  intros Hread Hblank.
  unfold _select_templates_based_on_seqid_cutoff.
  unfold bind at 1. unfold query at 1. rewrite Hread.
  unfold bind at 1. unfold lift at 1, read_seqids.
  now rewrite (templateids_blank_line lines Hblank).
Qed.

(** A report whose last line is only a newline, read without a cutoff. *)
Lemma blank_report_line_IndexError_witness :
  _select_templates_based_on_seqid_cutoff Mock.collaborators (Some "ABL1") None
    (Mock.world (Cases.dir_with_report ["T1 abc" ++ Mock.nl; Mock.nl]) ["50"; "y"])
  = (Raise IndexError,
     Mock.world (Cases.dir_with_report ["T1 abc" ++ Mock.nl; Mock.nl]) ["50"; "y"],
     []).
Proof.
  apply (blank_report_line_IndexError Mock.collaborators "ABL1" None
           (Mock.world (Cases.dir_with_report ["T1 abc" ++ Mock.nl; Mock.nl])
              ["50"; "y"])
           ["T1 abc" ++ Mock.nl; Mock.nl]).
  - reflexivity.
  - exists Mock.nl. split; [right; now left|reflexivity].
Defined.

(** X2: in a report without blank line, the first line whose second field
    is missing or is not a number decides the exception: [IndexError] if
    the line has a single field, [ValueError] if [float] rejects the
    field; the lines after it are not looked at, a cutoff given or not,
    and nothing is printed or asked. *)
Theorem bad_identity_field (E : Collaborators) (tid : string)
    (seqid_cutoff : option PrimFloat.float) (w : World E)
    (good : list string) (bad : string) (after : list string)
    (report : list (string * PrimFloat.float)) :
  readlines E (path_join [dirnames_models E; tid; "sequence-identities.txt"])
    (project E w) = Ok (good ++ bad :: after)%list ->
  Forall2 (line_is_row E) good report ->
  (forall line, In line after -> split line <> []) ->
  (forall id, split bad = [id] ->
     _select_templates_based_on_seqid_cutoff E (Some tid) seqid_cutoff w
     = (Raise IndexError, w, []))
  /\ (forall id field more,
        split bad = id :: field :: more -> float_of_str E field = None ->
        _select_templates_based_on_seqid_cutoff E (Some tid) seqid_cutoff w
        = (Raise ValueError, w, [])).
Proof.
  intros Hread Hgood Hafter.
  assert (Hids : forall id fields, split bad = id :: fields ->
            exists ids,
              comprehension item0 (map split (good ++ bad :: after)) = Ok ids).
  { intros id fields Hbad. apply templateids_no_blank_line.
    intros line Hin. apply in_app_or in Hin as [Hin|[<-|Hin]].
    - now apply (rows_not_blank E good report Hgood).
    - congruence.
    - now apply Hafter. }
  assert (Hcol : forall e,
            (match item1 (split bad) with
             | Raise x => Raise x
             | Ok x => float E x
             end) = Raise e ->
            comprehension (fun i => match item1 i with
                                    | Raise x => Raise x
                                    | Ok x => float E x
                                    end) (map split (good ++ bad :: after))
            = Raise e).
  { intros e Hbad. clear Hread Hids.
    induction Hgood as [|line row good report (field & more & Hs & Hf) _ IH];
      simpl.
    - now rewrite Hbad.
    - rewrite Hs. simpl. unfold float at 1. rewrite Hf. now rewrite IH. }
  split.
  - intros id Hbad.
    destruct (Hids id [] Hbad) as (ids & Hok).
    unfold _select_templates_based_on_seqid_cutoff.
    unfold bind at 1. unfold query at 1. rewrite Hread.
    unfold bind at 1. unfold lift at 1, read_seqids.
    rewrite Hok, (Hcol IndexError); [reflexivity|now rewrite Hbad].
  - intros id field more Hbad Hfloat.
    destruct (Hids id (field :: more) Hbad) as (ids & Hok).
    unfold _select_templates_based_on_seqid_cutoff.
    unfold bind at 1. unfold query at 1. rewrite Hread.
    unfold bind at 1. unfold lift at 1, read_seqids.
    rewrite Hok, (Hcol ValueError); [reflexivity|].
    rewrite Hbad. simpl. unfold float. now rewrite Hfloat.
Qed.

(** A line with a field that is not a number, before a line with a single
    field: [ValueError]. *)
Lemma bad_identity_field_witness :
  _select_templates_based_on_seqid_cutoff Mock.collaborators (Some "ABL1")
    (Some 50%float)
    (Mock.world (Cases.dir_with_report
                   ["T1 95.0" ++ Mock.nl; "T2 abc" ++ Mock.nl; "T3" ++ Mock.nl]) [])
  = (Raise ValueError,
     Mock.world (Cases.dir_with_report
                   ["T1 95.0" ++ Mock.nl; "T2 abc" ++ Mock.nl; "T3" ++ Mock.nl]) [],
     []).
Proof.
  destruct (bad_identity_field Mock.collaborators "ABL1" (Some 50%float)
              (Mock.world (Cases.dir_with_report
                 ["T1 95.0" ++ Mock.nl; "T2 abc" ++ Mock.nl; "T3" ++ Mock.nl]) [])
              ["T1 95.0" ++ Mock.nl] ("T2 abc" ++ Mock.nl) ["T3" ++ Mock.nl]
              [("T1", 95%float)]) as [_ Hvalue].
  - reflexivity.
  - apply Forall2_cons; [exists "95.0", []; split; reflexivity|].
    apply Forall2_nil.
  - intros line [<- | []]. discriminate.
  - exact (Hvalue "T2" "abc" [] eq_refl eq_refl).
Defined.

(** ** Comparing floats *)

Lemma SFcompare_refl (x : spec_float) :
  x <> S754_nan -> SFcompare x x = Some Eq.
Proof.
  destruct x as [s|s| |s m e]; simpl; try congruence.
  - now destruct s.
  - intros _. rewrite Z.compare_refl.
    change (PosDef.Pos.compare_cont Eq m m) with (Pos.compare m m).
    rewrite Pos.compare_refl. now destruct s.
Qed.

Lemma is_nan_spec (c : PrimFloat.float) :
  PrimFloat.eqb c c = false -> Prim2SF c = S754_nan.
Proof.
  rewrite eqb_spec. unfold SFeqb. intros H.
  destruct (Prim2SF c) as [s|s| |s m e] eqn:Hc; try reflexivity;
    rewrite SFcompare_refl in H; congruence.
Qed.

Lemma nan_not_gt (a b : PrimFloat.float) :
  PrimFloat.eqb a a = false \/ PrimFloat.eqb b b = false ->
  float_gt a b = false.
Proof.
  unfold float_gt. rewrite ltb_spec. unfold SFltb.
  intros [H|H]; rewrite (is_nan_spec _ H).
  - now destruct (Prim2SF b).
  - reflexivity.
Qed.

Lemma SFltb_trans (a b c : spec_float) :
  SFltb a b = true -> SFltb b c = true -> SFltb a c = true.
Proof.
  unfold SFltb.
  destruct a as [sa|sa| |sa ma ea], b as [sb|sb| |sb mb eb],
    c as [sc|sc| |sc mc ec]; simpl; try congruence;
    try (destruct sa, sb, sc; simpl; congruence);
    try (destruct sa, sb; simpl; congruence);
    try (destruct sa, sc; simpl; congruence);
    try (destruct sb, sc; simpl; congruence).
  change (PosDef.Pos.compare_cont Eq ma mb) with (Pos.compare ma mb).
  change (PosDef.Pos.compare_cont Eq mb mc) with (Pos.compare mb mc).
  change (PosDef.Pos.compare_cont Eq ma mc) with (Pos.compare ma mc).
  destruct sa, sb, sc; try congruence;
    destruct (Z.compare_spec ea eb), (Z.compare_spec eb ec),
      (Z.compare_spec ea ec); subst; try congruence; try lia;
    destruct (Pos.compare_spec ma mb), (Pos.compare_spec mb mc),
      (Pos.compare_spec ma mc); subst; simpl; try congruence; try lia.
Qed.

Lemma float_ltb_trans (a b c : PrimFloat.float) :
  PrimFloat.ltb a b = true -> PrimFloat.ltb b c = true ->
  PrimFloat.ltb a c = true.
Proof. rewrite !ltb_spec. apply SFltb_trans. Qed.

(** ** The cutoff and the selection *)

Lemma ids_above_nan_cutoff (c : PrimFloat.float)
    (report : list (string * PrimFloat.float)) :
  PrimFloat.eqb c c = false -> ids_above c report = [].
Proof.
  intros Hnan. unfold ids_above.
  induction report as [|[t p] report IH]; simpl; [reflexivity|].
  pose proof (nan_not_gt p c (or_intror Hnan)) as Hgt.
  unfold float_gt in Hgt. now rewrite Hgt.
Qed.

Lemma ids_above_nan_rows (c : PrimFloat.float)
    (report : list (string * PrimFloat.float)) :
  ids_above c report
  = ids_above c (filter (fun row => PrimFloat.eqb (snd row) (snd row)) report).
Proof.
  unfold ids_above.
  induction report as [|[t p] report IH]; simpl; [reflexivity|].
  destruct (PrimFloat.eqb p p) eqn:Hp; simpl.
  - destruct (PrimFloat.ltb c p); simpl; now rewrite IH.
  - pose proof (nan_not_gt p c (or_introl Hp)) as Hgt.
    unfold float_gt in Hgt. now rewrite Hgt.
Qed.

(** X3: a cutoff that is not a number ([float('nan')]) selects no
    template, whatever the report; and a row whose percentage is not a
    number is never selected, whatever the cutoff: the selection is the
    one on the report without those rows. *)
Theorem nan_never_selected (E : Collaborators) (tid : string)
    (seqid_cutoff : PrimFloat.float) (w : World E) (lines : list string)
    (report : list (string * PrimFloat.float)) :
  readlines E (path_join [dirnames_models E; tid; "sequence-identities.txt"])
    (project E w) = Ok lines ->
  Forall2 (line_is_row E) lines report ->
  (PrimFloat.eqb seqid_cutoff seqid_cutoff = false ->
   _select_templates_based_on_seqid_cutoff E (Some tid) (Some seqid_cutoff) w
   = (Ok [], w, []))
  /\ _select_templates_based_on_seqid_cutoff E (Some tid) (Some seqid_cutoff) w
     = (Ok (ids_above seqid_cutoff
              (filter (fun row => PrimFloat.eqb (snd row) (snd row)) report)),
        w, []).
Proof.
  intros Hread Hrows.
  pose proof (select_with_cutoff E tid seqid_cutoff w lines (frame report)
                Hread (read_seqids_rows E lines report Hrows)) as Hsel.
  rewrite rows_frame in Hsel.
  split.
  - intros Hnan. now rewrite Hsel, ids_above_nan_cutoff.
  - now rewrite Hsel, ids_above_nan_rows.
Qed.

(** The report of the example, with the cutoff [nan]. *)
Lemma nan_never_selected_witness :
  _select_templates_based_on_seqid_cutoff Mock.collaborators (Some "ABL1")
    (Some PrimFloat.nan) Mock.world0
  = (Ok [], Mock.world0, []).
Proof.
  refine (proj1 (nan_never_selected Mock.collaborators "ABL1" PrimFloat.nan
                   Mock.world0 Mock.report3
                   [("T1", 95%float); ("T2", 40%float); ("T3", 10%float)]
                   _ _) _).
  - reflexivity.
  - apply Forall2_cons; [exists "95.0", []; split; reflexivity|].
    apply Forall2_cons; [exists "40.0", []; split; reflexivity|].
    apply Forall2_cons; [exists "10.0", []; split; reflexivity|].
    apply Forall2_nil.
  - reflexivity.
Defined.

Lemma ids_above_higher_In (c1 c2 : PrimFloat.float)
    (report : list (string * PrimFloat.float)) :
  PrimFloat.ltb c1 c2 = true ->
  forall t, In t (ids_above c2 report) -> In t (ids_above c1 report).
Proof.
  intros Hlt t. unfold ids_above.
  rewrite !in_map_iff. intros ([t' p] & <- & Hin).
  apply filter_In in Hin as [Hin Hp]. simpl in Hp.
  exists (t', p). split; [reflexivity|].
  apply filter_In. split; [exact Hin|]. simpl.
  now apply float_ltb_trans with (b := c2).
Qed.

Lemma count_above_higher (c1 c2 : PrimFloat.float)
    (report : list (string * PrimFloat.float)) :
  PrimFloat.ltb c1 c2 = true ->
  (count_above c2 report <= count_above c1 report)%nat.
Proof.
  intros Hlt. unfold count_above, ids_above. rewrite !length_map.
  induction report as [|[t p] report IH]; simpl; [lia|].
  destruct (PrimFloat.ltb c2 p) eqn:H2.
  - rewrite (float_ltb_trans c1 c2 p Hlt H2). simpl. lia.
  - destruct (PrimFloat.ltb c1 p); simpl; lia.
Qed.

(** X4: raising the cutoff never adds a template: with two cutoffs, the
    first strictly below the second, every template selected with the
    second is selected with the first, and the second selection is not
    longer than the first. *)
Theorem higher_cutoff_selects_fewer (E : Collaborators) (tid : string)
    (c1 c2 : PrimFloat.float) (w : World E) (lines : list string)
    (report : list (string * PrimFloat.float)) :
  readlines E (path_join [dirnames_models E; tid; "sequence-identities.txt"])
    (project E w) = Ok lines ->
  Forall2 (line_is_row E) lines report ->
  PrimFloat.ltb c1 c2 = true ->
  exists low high,
    _select_templates_based_on_seqid_cutoff E (Some tid) (Some c1) w
    = (Ok low, w, [])
    /\ _select_templates_based_on_seqid_cutoff E (Some tid) (Some c2) w
       = (Ok high, w, [])
    /\ incl high low
    /\ (List.length high <= List.length low)%nat.
Proof.
  intros Hread Hrows Hlt.
  pose proof (read_seqids_rows E lines report Hrows) as Hdf.
  exists (ids_above c1 report), (ids_above c2 report).
  split; [|split; [|split]].
  - rewrite <- (rows_frame report) at 1.
    now apply select_with_cutoff with (lines := lines).
  - rewrite <- (rows_frame report) at 1.
    now apply select_with_cutoff with (lines := lines).
  - intros t. now apply ids_above_higher_In.
  - now apply count_above_higher.
Qed.

(** The report of the example at the cutoffs 30 and 50. *)
Lemma higher_cutoff_selects_fewer_witness :
  exists low high,
    _select_templates_based_on_seqid_cutoff Mock.collaborators (Some "ABL1")
      (Some 30%float) Mock.world0 = (Ok low, Mock.world0, [])
    /\ _select_templates_based_on_seqid_cutoff Mock.collaborators (Some "ABL1")
         (Some 50%float) Mock.world0 = (Ok high, Mock.world0, [])
    /\ incl high low
    /\ (List.length high <= List.length low)%nat.
Proof.
  apply (higher_cutoff_selects_fewer Mock.collaborators "ABL1" 30%float
           50%float Mock.world0 Mock.report3
           [("T1", 95%float); ("T2", 40%float); ("T3", 10%float)]).
  - reflexivity.
  - apply Forall2_cons; [exists "95.0", []; split; reflexivity|].
    apply Forall2_cons; [exists "40.0", []; split; reflexivity|].
    apply Forall2_cons; [exists "10.0", []; split; reflexivity|].
    apply Forall2_nil.
  - reflexivity.
Defined.

(** The numbers of rows above the cutoffs 0, 10, ..., 100 never increase. *)
Lemma counts_above_never_increase
    (report : list (string * PrimFloat.float)) (i k : nat) :
  (nth (i + k)
     (map (fun cutoff => count_above (float_of_int cutoff) report)
        [0; 10; 20; 30; 40; 50; 60; 70; 80; 90; 100]%Z) 0
   <= nth i
        (map (fun cutoff => count_above (float_of_int cutoff) report)
           [0; 10; 20; 30; 40; 50; 60; 70; 80; 90; 100]%Z) 0)%nat.
Proof.
  cbn [map].
  assert (Hstep : forall a b : Z,
            PrimFloat.ltb (float_of_int a) (float_of_int b) = true ->
            (count_above (float_of_int b) report
             <= count_above (float_of_int a) report)%nat).
  { intros a b. apply count_above_higher. }
  pose proof (Hstep 0 10 eq_refl)%Z as H0.
  pose proof (Hstep 10 20 eq_refl)%Z as H1.
  pose proof (Hstep 20 30 eq_refl)%Z as H2.
  pose proof (Hstep 30 40 eq_refl)%Z as H3.
  pose proof (Hstep 40 50 eq_refl)%Z as H4.
  pose proof (Hstep 50 60 eq_refl)%Z as H5.
  pose proof (Hstep 60 70 eq_refl)%Z as H6.
  pose proof (Hstep 70 80 eq_refl)%Z as H7.
  pose proof (Hstep 80 90 eq_refl)%Z as H8.
  pose proof (Hstep 90 100 eq_refl)%Z as H9.
  clear Hstep.
  generalize dependent (count_above (float_of_int 0) report).
  generalize dependent (count_above (float_of_int 10) report).
  generalize dependent (count_above (float_of_int 20) report).
  generalize dependent (count_above (float_of_int 30) report).
  generalize dependent (count_above (float_of_int 40) report).
  generalize dependent (count_above (float_of_int 50) report).
  generalize dependent (count_above (float_of_int 60) report).
  generalize dependent (count_above (float_of_int 70) report).
  generalize dependent (count_above (float_of_int 80) report).
  generalize dependent (count_above (float_of_int 90) report).
  generalize dependent (count_above (float_of_int 100) report).
  intros n10 n9 H9 n8 H8 n7 H7 n6 H6 n5 H5 n4 H4 n3 H3 n2 H2 n1 H1 n0 H0.
  destruct (Nat.lt_ge_cases (i + k) 11) as [Hin|Hout].
  - do 11 (destruct i as [|i];
           [do 11 (destruct k as [|k]; [simpl; lia|]); simpl in Hin; lia|]).
    lia.
  - rewrite (nth_overflow _ _ (n := i + k)); [lia|exact Hout].
Qed.

(** ** The console *)

(** The selection without a cutoff: the histogram, then the loop. *)
Lemma select_at_console (E : Collaborators) (tid : string) (w : World E)
    (lines : list string) (report : list (string * PrimFloat.float)) :
  readlines E (path_join [dirnames_models E; tid; "sequence-identities.txt"])
    (project E w) = Ok lines ->
  Forall2 (line_is_row E) lines report ->
  _select_templates_based_on_seqid_cutoff E (Some tid) None w
  = (let '(r, rest, evs) :=
       choose_cutoff E (frame report) tid (stdin E w) in
     (match r with
      | Ok c => Ok (ids_above c report)
      | Raise e => Raise e
      end,
      {| project := project E w; stdin := rest |},
      (histogram report ++ evs)%list)).
Proof.
  intros Hread Hrows.
  unfold _select_templates_based_on_seqid_cutoff.
  unfold bind at 1. unfold query at 1. rewrite Hread.
  unfold bind at 1. unfold lift at 1.
  rewrite (read_seqids_rows E lines report Hrows).
  unfold bind at 1. unfold bind at 1.
  rewrite histogram_printed.
  unfold while_not_chosen.
  destruct (choose_cutoff E (frame report) tid (stdin E w))
    as [[[c|e] rest] evs].
  - unfold ret. rewrite selected_templateids, rows_frame.
    now rewrite !app_nil_r.
  - reflexivity.
Qed.

(** X5: whenever the selection is run without a cutoff on a report that
    parses, the first eleven events of the run are the lines of the
    histogram, one per cutoff 0, 10, ..., 100 in this order, and the
    counts they print never increase from one line to a later one,
    whatever the report and however the run ends. *)
Theorem printed_histogram_never_increases (E : Collaborators) (tid : string)
    (w w' : World E) (lines : list string)
    (report : list (string * PrimFloat.float))
    (r : result (list string)) (evs : list Event) :
  readlines E (path_join [dirnames_models E; tid; "sequence-identities.txt"])
    (project E w) = Ok lines ->
  Forall2 (line_is_row E) lines report ->
  _select_templates_based_on_seqid_cutoff E (Some tid) None w = (r, w', evs) ->
  exists counts rest,
    evs = (map (fun line =>
                  ensembler.print
                    ("Number of templates with seqid > " ++ fmt_d (fst line)
                     ++ ": " ++ fmt_d (Z.of_nat (snd line))))
             (combine [0; 10; 20; 30; 40; 50; 60; 70; 80; 90; 100]%Z counts)
           ++ rest)%list
    /\ List.length counts = 11%nat
    /\ forall i k, (nth (i + k) counts 0 <= nth i counts 0)%nat.
Proof.
  intros Hread Hrows Hrun.
  rewrite (select_at_console E tid w lines report Hread Hrows) in Hrun.
  destruct (choose_cutoff E (frame report) tid (stdin E w))
    as [[r0 rest0] evs0].
  injection Hrun as <- <- <-.
  exists (map (fun cutoff => count_above (float_of_int cutoff) report)
            [0; 10; 20; 30; 40; 50; 60; 70; 80; 90; 100]%Z), evs0.
  split; [reflexivity|]. split; [reflexivity|].
  intros i k. apply counts_above_never_increase.
Qed.

(** The report of the example, nothing typed: the eleven lines, then the
    prompt at which the run ends. *)
Lemma printed_histogram_never_increases_witness :
  exists counts rest,
    [ensembler.print "Number of templates with seqid > 0: 3";
     ensembler.print "Number of templates with seqid > 10: 2";
     ensembler.print "Number of templates with seqid > 20: 2";
     ensembler.print "Number of templates with seqid > 30: 2";
     ensembler.print "Number of templates with seqid > 40: 1";
     ensembler.print "Number of templates with seqid > 50: 1";
     ensembler.print "Number of templates with seqid > 60: 1";
     ensembler.print "Number of templates with seqid > 70: 1";
     ensembler.print "Number of templates with seqid > 80: 1";
     ensembler.print "Number of templates with seqid > 90: 1";
     ensembler.print "Number of templates with seqid > 100: 0";
     ensembler.raw_input
       "Choose a sequence identity cutoff for target ABL1 (confirm at next step): "]
    = (map (fun line =>
              ensembler.print
                ("Number of templates with seqid > " ++ fmt_d (fst line)
                 ++ ": " ++ fmt_d (Z.of_nat (snd line))))
         (combine [0; 10; 20; 30; 40; 50; 60; 70; 80; 90; 100]%Z counts)
       ++ rest)%list
    /\ List.length counts = 11%nat
    /\ forall i k, (nth (i + k) counts 0 <= nth i counts 0)%nat.
Proof.
  assert (Hrun : _select_templates_based_on_seqid_cutoff Mock.collaborators
                   (Some "ABL1") None Mock.world0
                 = (Raise EOFError, Mock.world0,
                    [ensembler.print "Number of templates with seqid > 0: 3";
                     ensembler.print "Number of templates with seqid > 10: 2";
                     ensembler.print "Number of templates with seqid > 20: 2";
                     ensembler.print "Number of templates with seqid > 30: 2";
                     ensembler.print "Number of templates with seqid > 40: 1";
                     ensembler.print "Number of templates with seqid > 50: 1";
                     ensembler.print "Number of templates with seqid > 60: 1";
                     ensembler.print "Number of templates with seqid > 70: 1";
                     ensembler.print "Number of templates with seqid > 80: 1";
                     ensembler.print "Number of templates with seqid > 90: 1";
                     ensembler.print "Number of templates with seqid > 100: 0";
                     ensembler.raw_input
                       "Choose a sequence identity cutoff for target ABL1 (confirm at next step): "]))
    by (vm_compute; reflexivity).
  assert (Hrows : Forall2 (line_is_row Mock.collaborators) Mock.report3
                    [("T1", 95%float); ("T2", 40%float); ("T3", 10%float)]).
  { apply Forall2_cons; [exists "95.0", []; split; reflexivity|].
    apply Forall2_cons; [exists "40.0", []; split; reflexivity|].
    apply Forall2_cons; [exists "10.0", []; split; reflexivity|].
    apply Forall2_nil. }
  exact (printed_histogram_never_increases Mock.collaborators "ABL1"
           Mock.world0 Mock.world0 Mock.report3
           [("T1", 95%float); ("T2", 40%float); ("T3", 10%float)]
           (Raise EOFError) _ eq_refl Hrows Hrun).
Defined.

(** The turns that are not confirmed are gone through, whatever comes
    after them. *)
Lemma choose_cutoff_declined (E : Collaborators) (tid : string)
    (report : list (string * PrimFloat.float)) (tail : list string) :
  forall rejected : list turn,
    Forall (fun t => float_of_str E (typed t) = Some (value t)) rejected ->
    Forall (fun t => affirmative (answer t) = false) rejected ->
    choose_cutoff E (frame report) tid
      (List.concat (map turn_lines rejected) ++ tail)%list
    = (let '(r, rest, evs) := choose_cutoff E (frame report) tid tail in
       (r, rest,
        (List.concat (map (turn_events E tid report) rejected) ++ evs)%list)).
Proof.
  induction rejected as [|t rejected IH]; intros Hparse Hno.
  - simpl. now destruct (choose_cutoff E (frame report) tid tail) as [[r rest] evs].
  - inversion Hparse as [|? ? Ht Hparse']; subst.
    inversion Hno as [|? ? Hn Hno']; subst.
    change (List.concat (map turn_lines (t :: rejected)) ++ tail)%list
      with (typed t :: answer t
            :: (List.concat (map turn_lines rejected) ++ tail))%list.
    cbn [choose_cutoff].
    unfold float at 1. rewrite Ht.
    unfold affirmative in Hn. rewrite Hn.
    rewrite (IH Hparse' Hno').
    destruct (choose_cutoff E (frame report) tid tail) as [[r rest] evs].
    rewrite choose_cutoff_turn_events.
    cbn [map List.concat]. now rewrite <- app_assoc.
Qed.

(** X6: without a cutoff, when the console is closed before a cutoff is
    confirmed, the selection raises [EOFError] and selects nothing: after
    the histogram and the turns that were declined, either at the prompt
    for the cutoff, or, when a cutoff was typed, at the request for
    confirmation that follows the count. *)
Theorem console_closed_EOFError (E : Collaborators) (tid : string)
    (w : World E) (lines : list string)
    (report : list (string * PrimFloat.float)) (rejected : list turn) :
  readlines E (path_join [dirnames_models E; tid; "sequence-identities.txt"])
    (project E w) = Ok lines ->
  Forall2 (line_is_row E) lines report ->
  Forall (fun t => float_of_str E (typed t) = Some (value t)) rejected ->
  Forall (fun t => affirmative (answer t) = false) rejected ->
  (stdin E w = List.concat (map turn_lines rejected) ->
   _select_templates_based_on_seqid_cutoff E (Some tid) None w
   = (Raise EOFError, {| project := project E w; stdin := [] |},
      (histogram report
       ++ List.concat (map (turn_events E tid report) rejected)
       ++ [ensembler.raw_input (prompt_cutoff tid)])%list))
  /\ (forall t,
        stdin E w = (List.concat (map turn_lines rejected) ++ [typed t])%list ->
        float_of_str E (typed t) = Some (value t) ->
        _select_templates_based_on_seqid_cutoff E (Some tid) None w
        = (Raise EOFError, {| project := project E w; stdin := [] |},
           (histogram report
            ++ List.concat (map (turn_events E tid report) rejected)
            ++ turn_events E tid report t)%list)).
Proof.
  intros Hread Hrows Hparse Hno.
  pose proof (select_at_console E tid w lines report Hread Hrows) as Hsel.
  split.
  - intros Hin. rewrite Hsel, Hin.
    rewrite <- (app_nil_r (List.concat (map turn_lines rejected))).
    now rewrite (choose_cutoff_declined E tid report [] rejected Hparse Hno).
  - intros t Hin Ht. rewrite Hsel, Hin.
    rewrite (choose_cutoff_declined E tid report [typed t] rejected Hparse Hno).
    cbn [choose_cutoff]. unfold float. rewrite Ht.
    now rewrite choose_cutoff_turn_events.
Qed.

(** Nothing at all can be read: the histogram, one prompt, [EOFError]. *)
Lemma console_closed_EOFError_witness :
  _select_templates_based_on_seqid_cutoff Mock.collaborators (Some "ABL1") None
    Mock.world0
  = (Raise EOFError, Mock.world0,
     (histogram [("T1", 95%float); ("T2", 40%float); ("T3", 10%float)]
      ++ [ensembler.raw_input (prompt_cutoff "ABL1")])%list).
Proof.
  refine (proj1 (console_closed_EOFError Mock.collaborators "ABL1"
                   Mock.world0 Mock.report3
                   [("T1", 95%float); ("T2", 40%float); ("T3", 10%float)] []
                   _ _ _ _) _).
  - reflexivity.
  - apply Forall2_cons; [exists "95.0", []; split; reflexivity|].
    apply Forall2_cons; [exists "40.0", []; split; reflexivity|].
    apply Forall2_cons; [exists "10.0", []; split; reflexivity|].
    apply Forall2_nil.
  - constructor.
  - constructor.
  - reflexivity.
Defined.

(** X7: without a cutoff, a text typed at the prompt that [float] does not
    read makes the selection raise [ValueError] at once: the count is not
    printed, no confirmation is asked, the prompt is not repeated, and the
    lines typed after it are left unread. *)
Theorem typed_cutoff_not_a_number (E : Collaborators) (tid : string)
    (w : World E) (lines : list string)
    (report : list (string * PrimFloat.float)) (rejected : list turn)
    (bad : string) (rest : list string) :
  readlines E (path_join [dirnames_models E; tid; "sequence-identities.txt"])
    (project E w) = Ok lines ->
  Forall2 (line_is_row E) lines report ->
  Forall (fun t => float_of_str E (typed t) = Some (value t)) rejected ->
  Forall (fun t => affirmative (answer t) = false) rejected ->
  stdin E w = (List.concat (map turn_lines rejected) ++ bad :: rest)%list ->
  float_of_str E bad = None ->
  _select_templates_based_on_seqid_cutoff E (Some tid) None w
  = (Raise ValueError, {| project := project E w; stdin := rest |},
     (histogram report
      ++ List.concat (map (turn_events E tid report) rejected)
      ++ [ensembler.raw_input (prompt_cutoff tid)])%list).
Proof.
  intros Hread Hrows Hparse Hno Hin Hbad.
  rewrite (select_at_console E tid w lines report Hread Hrows), Hin.
  rewrite (choose_cutoff_declined E tid report (bad :: rest) rejected Hparse Hno).
  cbn [choose_cutoff]. unfold float. now rewrite Hbad.
Qed.

(** 30 is typed and declined, then [fifty] is typed. *)
Lemma typed_cutoff_not_a_number_witness :
  _select_templates_based_on_seqid_cutoff Mock.collaborators (Some "ABL1") None
    (Mock.world Mock.dir0 ["30"; "n"; "fifty"; "y"])
  = (Raise ValueError, Mock.world Mock.dir0 ["y"],
     (histogram [("T1", 95%float); ("T2", 40%float); ("T3", 10%float)]
      ++ [ensembler.raw_input (prompt_cutoff "ABL1");
          ensembler.print
            "Number of templates chosen by sequence identity cutoff (30.0): 2";
          ensembler.raw_input prompt_confirm;
          ensembler.raw_input (prompt_cutoff "ABL1")])%list).
Proof.
  apply (typed_cutoff_not_a_number Mock.collaborators "ABL1"
           (Mock.world Mock.dir0 ["30"; "n"; "fifty"; "y"]) Mock.report3
           [("T1", 95%float); ("T2", 40%float); ("T3", 10%float)]
           [{| typed := "30"; value := 30%float; answer := "n" |}]
           "fifty" ["y"]).
  - reflexivity.
  - apply Forall2_cons; [exists "95.0", []; split; reflexivity|].
    apply Forall2_cons; [exists "40.0", []; split; reflexivity|].
    apply Forall2_cons; [exists "10.0", []; split; reflexivity|].
    apply Forall2_nil.
  - repeat constructor.
  - repeat constructor.
  - reflexivity.
  - reflexivity.
Defined.





(** ** Runs that leave the console alone *)

Lemma silent_bind_returns (E : Collaborators) {A B} (R : A -> Prop)
    (c : M E A) (k : A -> M E B) :
  silent E c -> returns E R c -> (forall a, R a -> silent E (k a)) ->
  silent E (bind c k).
Proof.
  intros Hc HR Hk w r w' evs. unfold bind.
  destruct (c w) as [[[a|e] w1] ev1] eqn:Hcw.
  - destruct (k a w1) as [[r2 w2] ev2] eqn:Hkw.
    intros [= <- <- <-].
    destruct (Hc _ _ _ _ Hcw) as [Hs1 Hq1].
    destruct (Hk a (HR _ _ _ _ Hcw) _ _ _ _ Hkw) as [Hs2 Hq2].
    split; [congruence|now apply Forall_app].
  - intros [= <- <- <-]. exact (Hc _ _ _ _ Hcw).
Qed.

Lemma silent_bind (E : Collaborators) {A B} (c : M E A) (k : A -> M E B) :
  silent E c -> (forall a, silent E (k a)) -> silent E (bind c k).
Proof.
  intros Hc Hk.
  apply silent_bind_returns with (R := fun _ => True); auto.
  apply returns_any.
Qed.

Lemma silent_ret (E : Collaborators) {A} (a : A) : silent E (ret a).
Proof. intros w r w' evs [= <- <- <-]. now split. Qed.

Lemma silent_raise (E : Collaborators) {A} (e : exn) : silent E (@raise E A e).
Proof. intros w r w' evs [= <- <- <-]. now split. Qed.

Lemma silent_lift (E : Collaborators) {A} (x : result A) : silent E (lift E x).
Proof. intros w r w' evs [= <- <- <-]. now split. Qed.

Lemma silent_ask (E : Collaborators) {A} (f : Project E -> A) :
  silent E (ask E f).
Proof. intros w r w' evs [= <- <- <-]. now split. Qed.

Lemma silent_query (E : Collaborators) {A} (f : Project E -> result A) :
  silent E (query E f).
Proof. intros w r w' evs [= <- <- <-]. now split. Qed.

Lemma silent_call (E : Collaborators) (e : Event) :
  console_event e = false -> silent E (call E e).
Proof.
  intros He w r w' evs. unfold call.
  destruct (exec E e (project E w)); intros [= <- <- <-];
    split; try reflexivity; now constructor.
Qed.

Lemma silent_say (E : Collaborators) (e : Event) :
  console_event e = false -> silent E (say E e).
Proof. intros He w r w' evs [= <- <- <-]. split; [reflexivity|now constructor]. Qed.

Lemma silent__model (E : Collaborators) (self : QuickModel)
    (targetid : option string) (templateids : option (list string))
    (loopmodel package_for_fah : bool) (nfahclones : option Z) :
  silent E (_model E self targetid templateids loopmodel package_for_fah
              nfahclones).
Proof.
  unfold _model.
  apply silent_bind.
  { destruct (truthy loopmodel); [now apply silent_call|apply silent_ret]. }
  intros _. repeat (apply silent_bind; [now apply silent_call|intros _]).
  destruct (truthy package_for_fah); [now apply silent_call|apply silent_ret].
Qed.

Lemma silent_select_with_cutoff (E : Collaborators) (targetid : option string)
    (c : PrimFloat.float) :
  silent E (_select_templates_based_on_seqid_cutoff E targetid (Some c)).
Proof.
  unfold _select_templates_based_on_seqid_cutoff.
  destruct targetid as [tid|]; [|apply silent_raise].
  apply silent_bind; [apply silent_query|intros lines].
  apply silent_bind; [apply silent_lift|intros df].
  apply silent_bind; [apply silent_ret|intros c']. apply silent_ret.
Qed.

(** The inputs that keep the selection away from the console: a cutoff, or
    template ids or structure-source ids that are not empty. *)
Lemma silent_resolve_templateids (E : Collaborators) (self : QuickModel)
    (existing_templates : bool) :
  model_seqid_cutoff self <> None
  \/ truthy (templateids self) = true
  \/ truthy (pdbids self) = true ->
  silent E (resolve_templateids E self existing_templates).
Proof.
  intros Hinputs. unfold resolve_templateids, _align_all_templates.
  destruct (truthy (templateids self)).
  { destruct (negb existing_templates); [apply silent_raise|apply silent_ret]. }
  destruct (truthy (pdbids self)).
  { apply silent_bind; [now apply silent_call|intros _].
    apply silent_bind; [apply silent_query|intros l]. apply silent_ret. }
  destruct Hinputs as [Hcut|[Hf|Hf]]; try discriminate Hf.
  destruct (model_seqid_cutoff self) as [c|]; [|contradiction].
  destruct (truthy (template_uniprot_query self)).
  { apply silent_bind; [now apply silent_call|intros _].
    apply silent_bind; [now apply silent_call|intros _].
    apply silent_bind; [apply silent_select_with_cutoff|intros l].
    apply silent_ret. }
  destruct (negb existing_templates); [apply silent_raise|].
  apply silent_bind; [now apply silent_call|intros _].
  apply silent_bind; [apply silent_select_with_cutoff|intros l].
  apply silent_ret.
Qed.

Lemma resolve_targetid_inputs (E : Collaborators) (self : QuickModel) :
  returns E (fun self1 =>
               model_seqid_cutoff self1 = model_seqid_cutoff self
               /\ templateids self1 = templateids self
               /\ pdbids self1 = pdbids self)
    (resolve_targetid E self).
Proof.
  unfold resolve_targetid.
  destruct (negb (truthy (targetid self))); [|now apply returns_ret].
  destruct (orb _ _); [apply returns_raise|].
  eapply returns_bind; [apply returns_any|intros _ _].
  eapply returns_bind; [apply returns_any|intros targets _].
  eapply returns_bind; [apply returns_any|intros first _].
  now apply returns_ret.
Qed.

Lemma silent_resolve_targetid (E : Collaborators) (self : QuickModel) :
  silent E (resolve_targetid E self).
Proof.
  unfold resolve_targetid.
  destruct (negb (truthy (targetid self))); [|apply silent_ret].
  destruct (orb _ _); [apply silent_raise|].
  apply silent_bind; [now apply silent_call|intros _].
  apply silent_bind; [apply silent_ask|intros targets].
  apply silent_bind; [apply silent_lift|intros first].
  apply silent_ret.
Qed.

Lemma silent_find_existing_templates (E : Collaborators) :
  silent E (find_existing_templates E).
Proof.
  unfold find_existing_templates.
  apply silent_bind; [apply silent_ask|intros [|]; [|apply silent_ret]].
  apply silent_bind; [apply silent_query|intros l].
  destruct (0 <? List.length l)%nat; apply silent_ret.
Qed.

(** X9: when a cutoff is given, or template ids or structure-source ids
    that are not empty, the constructor never touches the console: in the
    whole run it prints nothing, asks nothing, and leaves what is typed
    unread. *)
Theorem console_untouched (E : Collaborators) (self : QuickModel)
    (w w' : World E) (r : result QuickModel) (evs : list Event) :
  model_seqid_cutoff self <> None
  \/ truthy (templateids self) = true
  \/ truthy (pdbids self) = true ->
  __init__ E self w = (r, w', evs) ->
  stdin E w' = stdin E w /\ Forall (fun e => console_event e = false) evs.
Proof.
  intros Hinputs. revert w r w' evs.
  change (silent E (__init__ E self)).
  unfold __init__, resolve.
  apply silent_bind.
  - apply silent_bind.
    { unfold ensure_project.
      apply silent_bind; [apply silent_ask|intros [|]]; simpl.
      - apply silent_ret.
      - now apply silent_call. }
    intros _. apply silent_bind.
    { unfold check_target_arguments.
      destruct (orb _ _); [apply silent_raise|apply silent_ret]. }
    intros _.
    eapply silent_bind_returns;
      [apply silent_resolve_targetid|apply resolve_targetid_inputs|].
    intros self1 (Hcut & Hids & Hpdb).
    apply silent_bind; [apply silent_find_existing_templates|intros ex].
    apply silent_resolve_templateids.
    now rewrite Hcut, Hids, Hpdb.
  - intros self'. apply silent_bind; [|intros _; apply silent_ret].
    unfold model_or_exit.
    destruct (orb _ _); [now apply silent_say|apply silent__model].
Qed.

(** A cutoff of 99 is given and two lines are waiting at the console:
    they are still there after the run. *)
Lemma console_untouched_witness :
  stdin Mock.collaborators (Mock.world Mock.dir0 ["50"; "y"]) = ["50"; "y"]
  /\ Forall (fun e => console_event e = false)
       [ensembler.align_targets_and_templates (Some "ABL1") None;
        ensembler.warn "No templates found. Exiting."].
Proof.
  assert (Hrun : __init__ Mock.collaborators (Mock.with_cutoff 99%float)
                   (Mock.world Mock.dir0 ["50"; "y"])
                 = (Ok (set_templateids (Mock.with_cutoff 99%float) (Some [])),
                    Mock.world Mock.dir0 ["50"; "y"],
                    [ensembler.align_targets_and_templates (Some "ABL1") None;
                     ensembler.warn "No templates found. Exiting."]))
    by (vm_compute; reflexivity).
  assert (Hcutoff : model_seqid_cutoff (Mock.with_cutoff 99%float) <> None
                    \/ truthy (templateids (Mock.with_cutoff 99%float)) = true
                    \/ truthy (pdbids (Mock.with_cutoff 99%float)) = true)
    by (left; discriminate).
  exact (console_untouched Mock.collaborators (Mock.with_cutoff 99%float)
           (Mock.world Mock.dir0 ["50"; "y"]) (Mock.world Mock.dir0 ["50"; "y"])
           (Ok (set_templateids (Mock.with_cutoff 99%float) (Some [])))
           [ensembler.align_targets_and_templates (Some "ABL1") None;
            ensembler.warn "No templates found. Exiting."]
           Hcutoff Hrun).
Defined.

(** ** The project directory *)

(** X10: in a directory that is not a project, the constructor calls
    [InitProject('.')] before it looks at its arguments: if that call
    raises, the constructor raises the same; if it returns and the target
    arguments are wrong (both falsy or both non-empty), the configuration
    error is raised with the project already initialised. *)
Theorem project_initialised_before_check (E : Collaborators)
    (self : QuickModel) (w : World E) :
  check_project_toplevel_dir E (project E w) = false ->
  (forall x,
     exec E (ensembler.InitProject ".") (project E w) = Raise x ->
     __init__ E self w = (Raise x, w, [ensembler.InitProject "."]))
  /\ (forall p,
        exec E (ensembler.InitProject ".") (project E w) = Ok p ->
        truthy (targetid self) = truthy (target_uniprot_entry_name self) ->
        __init__ E self w
        = (Raise (Exception
                    "Must specify either targetid or target_uniprot_entry_name."),
           {| project := p; stdin := stdin E w |},
           [ensembler.InitProject "."])).
Proof.
  intros Hnot. split.
  - intros x Hx. apply __init___resolve_raises.
    unfold resolve. apply bind_Raise.
    unfold ensure_project, bind, ask, call. rewrite Hnot. cbn [negb].
    now rewrite Hx.
  - intros p Hp Hargs.
    assert (Hproject : ensure_project E w
                       = (Ok tt, {| project := p; stdin := stdin E w |},
                          [ensembler.InitProject "."])).
    { unfold ensure_project, bind, ask, call. rewrite Hnot. cbn [negb].
      now rewrite Hp. }
    now apply (target_arguments_checked E self w _ _ Hproject).
Qed.

(** No argument at all, in a directory that is not a project. *)
Lemma project_initialised_before_check_witness :
  __init__ Mock.collaborators defaults (Mock.world Cases.dir_not_project [])
  = (Raise (Exception
              "Must specify either targetid or target_uniprot_entry_name."),
     Mock.world {| Mock.toplevel := true; Mock.uniprot_targets := [];
                   Mock.templates_fa := None; Mock.report := None |} [],
     [ensembler.InitProject "."]).
Proof.
  refine (proj2 (project_initialised_before_check Mock.collaborators defaults
                   (Mock.world Cases.dir_not_project []) eq_refl)
            {| Mock.toplevel := true; Mock.uniprot_targets := [];
               Mock.templates_fa := None; Mock.report := None |} _ _);
    reflexivity.
Defined.

Lemma __init___after_project (E : Collaborators) (self : QuickModel)
    (w : World E) (r : result QuickModel) (w' : World E) (evs : list Event) :
  __init__ E self w = (r, w', evs) ->
  exists first rest,
    evs = (first ++ rest)%list
    /\ (first = []
        \/ first = [ensembler.InitProject "."]
           /\ check_project_toplevel_dir E (project E w) = false)
    /\ (check_project_toplevel_dir E (project E w) = false ->
        first = [ensembler.InitProject "."])
    /\ Forall (fun e => init_call e = false) rest.
Proof.
  assert (Hrest : forall self0,
            emits E (fun e => init_call e = false)
              (check_target_arguments E self0 ;;
               self1 <- resolve_targetid E self0 ;;
               existing_templates <- find_existing_templates E ;;
               resolve_templateids E self1 existing_templates)).
  { intros self0. apply emits_bind.
    { unfold check_target_arguments.
      destruct (orb _ _); [apply emits_raise|apply emits_ret]. }
    intros _. apply emits_bind.
    { unfold resolve_targetid.
      destruct (negb (truthy (targetid self0))); [|apply emits_ret].
      destruct (orb _ _); [apply emits_raise|].
      apply emits_bind; [now apply emits_call|intros _].
      apply emits_bind; [apply emits_ask|intros targets].
      apply emits_bind; [apply emits_lift|intros first].
      apply emits_ret. }
    intros self1. apply emits_bind.
    { unfold find_existing_templates.
      apply emits_bind; [apply emits_ask|intros [|]; [|apply emits_ret]].
      apply emits_bind; [apply emits_query|intros l].
      destruct (0 <? List.length l)%nat; apply emits_ret. }
    intros ex.
    assert (Hselect : forall t c,
              emits E (fun e => init_call e = false)
                (_select_templates_based_on_seqid_cutoff E t c)).
    { intros t c. eapply emits_weaken; [|apply _select_console].
      intros e. destruct e; simpl; congruence. }
    unfold resolve_templateids, _align_all_templates.
    destruct (truthy (templateids self1)).
    { destruct (negb ex); [apply emits_raise|apply emits_ret]. }
    destruct (truthy (pdbids self1)).
    { apply emits_bind; [now apply emits_call|intros _].
      apply emits_bind; [apply emits_query|intros l]. apply emits_ret. }
    destruct (truthy (template_uniprot_query self1)).
    { apply emits_bind; [now apply emits_call|intros _].
      apply emits_bind; [now apply emits_call|intros _].
      apply emits_bind; [apply Hselect|intros l]. apply emits_ret. }
    destruct (negb ex); [apply emits_raise|].
    apply emits_bind; [now apply emits_call|intros _].
    apply emits_bind; [apply Hselect|intros l]. apply emits_ret. }
  assert (Hend : forall self0,
            emits E (fun e => init_call e = false)
              (model_or_exit E self0 ;; ret self0)).
  { intros self0. apply emits_bind; [|intros _; apply emits_ret].
    unfold model_or_exit. destruct (orb _ _); [now apply emits_say|].
    unfold _model.
    apply emits_bind.
    { destruct (truthy (loopmodel self0));
        [now apply emits_call|apply emits_ret]. }
    intros _. repeat (apply emits_bind; [now apply emits_call|intros _]).
    destruct (truthy (package_for_fah self0));
      [now apply emits_call|apply emits_ret]. }
  unfold __init__, resolve. unfold bind at 1. unfold bind at 1.
  unfold ensure_project at 1. unfold bind at 1. unfold ask at 1.
  destruct (check_project_toplevel_dir E (project E w)) eqn:Hcheck; cbn [negb].
  - unfold ret at 1.
    destruct (bind (check_target_arguments E self) _ w) as [[[self'|e] w1] ev1]
      eqn:Hres.
    + destruct (bind (model_or_exit E self') _ w1) as [[r2 w2] ev2] eqn:Hfin.
      intros [= <- <- <-]. exists [], (ev1 ++ ev2)%list.
      split; [reflexivity|]. split; [now left|]. split; [discriminate|].
      apply Forall_app. split; [eapply Hrest|eapply Hend]; eassumption.
    + intros [= <- <- <-]. exists [], ev1.
      split; [reflexivity|]. split; [now left|]. split; [discriminate|].
      eapply Hrest; eassumption.
  - unfold call at 1.
    destruct (exec E (ensembler.InitProject ".") (project E w)) as [p|x].
    + destruct (bind (check_target_arguments E self) _ _) as [[[self'|e] w1] ev1]
        eqn:Hres.
      * destruct (bind (model_or_exit E self') _ w1) as [[r2 w2] ev2] eqn:Hfin.
        intros [= <- <- <-].
        exists [ensembler.InitProject "."], (ev1 ++ ev2)%list.
        split; [reflexivity || now rewrite <- app_assoc|]. split; [now right|].
        split; [reflexivity|].
        apply Forall_app. split; [eapply Hrest|eapply Hend]; eassumption.
      * intros [= <- <- <-]. exists [ensembler.InitProject "."], ev1.
        split; [reflexivity|]. split; [now right|]. split; [reflexivity|].
        eapply Hrest; eassumption.
    + intros [= <- <- <-]. exists [ensembler.InitProject "."], [].
      split; [reflexivity|]. split; [now right|]. split; [reflexivity|].
      constructor.
Qed.

(** X11: the project directory is initialised at most once in a run, as
    the very first call, and only in a directory that is not already a
    project: in a project no call of [InitProject] is ever made; otherwise
    the run starts with [InitProject('.')] and makes no other. *)
Theorem project_initialised_once (E : Collaborators) (self : QuickModel)
    (w w' : World E) (r : result QuickModel) (evs : list Event) :
  __init__ E self w = (r, w', evs) ->
  (check_project_toplevel_dir E (project E w) = true ->
   Forall (fun e => init_call e = false) evs)
  /\ (check_project_toplevel_dir E (project E w) = false ->
      exists rest,
        evs = ensembler.InitProject "." :: rest
        /\ Forall (fun e => init_call e = false) rest).
Proof.
  intros Hrun.
  destruct (__init___after_project E self w r w' evs Hrun)
    as (first & rest & -> & Hfirst & Hnot & Hrest).
  split.
  - intros Hyes. destruct Hfirst as [-> | [_ Hno]]; [exact Hrest|congruence].
  - intros Hno. rewrite (Hnot Hno). now exists rest.
Qed.

(** A modelling run in a project: [InitProject] is not among its calls. *)
Lemma project_initialised_once_witness :
  Forall (fun e => init_call e = false)
    [ensembler.align_targets_and_templates (Some "ABL1") None;
     ensembler.warn "No templates found. Exiting."].
Proof.
  assert (Hrun : __init__ Mock.collaborators (Mock.with_cutoff 99%float)
                   Mock.world0
                 = (Ok (set_templateids (Mock.with_cutoff 99%float) (Some [])),
                    Mock.world0,
                    [ensembler.align_targets_and_templates (Some "ABL1") None;
                     ensembler.warn "No templates found. Exiting."]))
    by (vm_compute; reflexivity).
  exact (proj1 (project_initialised_once Mock.collaborators
                  (Mock.with_cutoff 99%float) Mock.world0 Mock.world0
                  (Ok (set_templateids (Mock.with_cutoff 99%float) (Some [])))
                  [ensembler.align_targets_and_templates (Some "ABL1") None;
                   ensembler.warn "No templates found. Exiting."] Hrun)
           eq_refl).
Defined.

(** ** Discovering no target *)

(** X12: when target discovery returns and has found no target, the
    constructor raises [IndexError], not a configuration error, right
    after the discovery call: no template is looked for and nothing is
    modelled. *)
Theorem discovery_without_target (E : Collaborators) (self : QuickModel)
    (w0 w : World E) (ev0 : list Event) (name pattern : string)
    (p : Project E) :
  ensure_project E w0 = (Ok tt, w, ev0) ->
  truthy (targetid self) = false ->
  target_uniprot_entry_name self = Some name -> name <> "" ->
  uniprot_domain_regex self = Some pattern -> pattern <> "" ->
  exec E (ensembler.GatherTargetsFromUniProt ("mnemonic:" ++ name)
            (Some pattern)) (project E w) = Ok p ->
  gathered_targets E p = [] ->
  __init__ E self w0
  = (Raise IndexError, {| project := p; stdin := stdin E w |},
     (ev0 ++ [ensembler.GatherTargetsFromUniProt ("mnemonic:" ++ name)
                (Some pattern)])%list).
Proof.
  intros Hproject Htid Hname Hne Hpat Hpe Hexec Hnone.
  apply __init___resolve_raises.
  destruct (target_arguments_checked E self w0 w ev0 Hproject) as (_ & Hdiff).
  rewrite Hdiff.
  2:{ rewrite Htid, Hname. now destruct name. }
  unfold bind at 1.
  rewrite (resolve_targetid_discovers E self w name pattern
             Htid Hname Hne Hpat Hpe).
  cbv zeta. now rewrite Hexec, Hnone.
Qed.

(** The entry name ABL1_HUMAN in a project where discovery finds nothing. *)
Lemma discovery_without_target_witness :
  __init__ Mock.collaborators (Mock.with_entry_name (Some "^Pkinase"))
    (Mock.world Cases.dir_no_target [])
  = (Raise IndexError, Mock.world Cases.dir_no_target [],
     [ensembler.GatherTargetsFromUniProt "mnemonic:ABL1_HUMAN"
        (Some "^Pkinase")]).
Proof.
  apply (discovery_without_target Mock.collaborators
           (Mock.with_entry_name (Some "^Pkinase"))
           (Mock.world Cases.dir_no_target [])
           (Mock.world Cases.dir_no_target []) []
           "ABL1_HUMAN" "^Pkinase" Cases.dir_no_target);
    try reflexivity; discriminate.
Defined.

(** ** The clone count *)

Lemma nclones_passed_spec (nfahclones : option Z) :
  (if negb (truthy nfahclones) then Some 1%Z else nfahclones)
  = Some (nclones_passed nfahclones)
  /\ nclones_passed nfahclones <> 0%Z.
Proof.
  unfold nclones_passed.
  destruct nfahclones as [n|]; [|split; [reflexivity|discriminate]].
  change (truthy (Some n)) with (negb (n =? 0)%Z).
  rewrite negb_involutive.
  destruct (Z.eqb_spec n 0); split; try reflexivity; try discriminate.
  assumption.
Qed.

(** X13: whatever clone count is given, the packaging call never receives
    0 or [None]: it receives the count given when that is not 0, and 1
    when it is 0 or absent. *)
Theorem packaging_clones_never_zero (E : Collaborators) (self : QuickModel)
    (w w' : World E) (r : result QuickModel) (evs : list Event) :
  __init__ E self w = (r, w', evs) ->
  forall t n,
    In (ensembler.package_for_fah t n) evs ->
    n = Some (nclones_passed (nfahclones self))
    /\ nclones_passed (nfahclones self) <> 0%Z.
Proof.
  intros Hrun t n Hin.
  destruct (__init___cases E self w)
    as [(e & w1 & ev1 & Hres & Hinit)
       |[(self1 & w1 & ev1 & Hres & Hnone & Hinit)
        |(self1 & w1 & ev1 & r2 & w2 & ev2 & Hres & Hsome & Hcalls & Hinit)]];
    rewrite Hinit in Hrun; injection Hrun as <- <- <-;
    pose proof (resolve_quiet E self w _ _ _ Hres) as Hq1;
    rewrite Forall_forall in Hq1.
  - now specialize (Hq1 _ Hin).
  - apply in_app_or in Hin as [Hin|[Hin|[]]]; [|discriminate].
    now specialize (Hq1 _ Hin).
  - apply in_app_or in Hin as [Hin|Hin]; [now specialize (Hq1 _ Hin)|].
    destruct (same_options_fields self self1
                (resolve_same_options E self w _ _ _ Hres))
      as (_ & _ & Hnf & _).
    destruct (calls_in_order E _ _ _ _ _ Hcalls) as (Hpre & _ & _).
    apply (prefix_of_In _ _ _ Hpre) in Hin.
    destruct (nclones_passed_spec (nfahclones self)) as [Hpassed Hnz].
    unfold modeling_sequence in Hin. rewrite Hnf, Hpassed in Hin.
    split; [|exact Hnz].
    destruct (loopmodel self1), (package_for_fah self1); simpl in Hin;
      repeat (destruct Hin as [Hin|Hin]; [congruence|]);
      destruct Hin.
Qed.

(** [nfahclones=0]: the packaging is called with one clone. *)
Lemma packaging_clones_never_zero_witness :
  Some 1%Z = Some (nclones_passed (nfahclones (Cases.with_nfahclones 0)))
  /\ nclones_passed (nfahclones (Cases.with_nfahclones 0)) <> 0%Z.
Proof.
  assert (Hrun : __init__ Mock.collaborators (Cases.with_nfahclones 0)
                   Mock.world0
                 = (Ok (Cases.with_nfahclones 0), Mock.world0,
                    [ensembler.align_targets_and_templates (Some "ABL1")
                       (Some ["T1_A"]);
                     ensembler.build_models (Some "ABL1") (Some ["T1_A"]);
                     ensembler.cluster_models (Some "ABL1");
                     ensembler.refine_implicit_md (Some "ABL1") (Some ["T1_A"])
                       (picoseconds 100);
                     ensembler.solvate_models (Some "ABL1") (Some ["T1_A"]);
                     ensembler.determine_nwaters (Some "ABL1") (Some ["T1_A"]);
                     ensembler.refine_explicit_md (Some "ABL1") (Some ["T1_A"])
                       (picoseconds 100);
                     ensembler.package_for_fah (Some "ABL1") (Some 1%Z)]))
    by (vm_compute; reflexivity).
  refine (packaging_clones_never_zero Mock.collaborators
            (Cases.with_nfahclones 0) Mock.world0 Mock.world0 _ _ Hrun
            (Some "ABL1") (Some 1%Z) _).
  do 7 right. now left.
Defined.

(** ** A collaborator that raises *)

(** A list of calls that ends with an exception: the calls before the
    last one made have all returned, and the last one raised it. *)
Lemma calls_raise_last (E : Collaborators) :
  forall (l : list Event) (w w' : World E) (x : exn) (evs : list Event),
    for_each E (call E) l w = (Raise x, w', evs) ->
    exists before e wb,
      evs = (before ++ [e])%list
      /\ for_each E (call E) before w = (Ok tt, wb, before)
      /\ exec E e (project E wb) = Raise x.
Proof.
  induction l as [|e l IH]; intros w w' x evs.
  - simpl. discriminate.
  - rewrite calls_cons.
    destruct (exec E e (project E w)) as [p|y] eqn:He.
    + destruct (for_each E (call E) l {| project := p; stdin := stdin E w |})
        as [[r2 w2] ev2] eqn:Hl.
      intros [= -> <- <-].
      destruct (IH _ _ _ _ Hl) as (before & e' & wb & -> & Hbefore & Hraise).
      exists (e :: before), e', wb.
      split; [reflexivity|]. split; [|exact Hraise].
      rewrite calls_cons, He, Hbefore. reflexivity.
    + intros [= <- <- <-]. exists [], e, w.
      split; [reflexivity|]. split; [reflexivity|exact He].
Qed.

Lemma modeling_sequence_calls (self : QuickModel) (targetid : option string)
    (ids : list string) (loopmodel package_for_fah : bool)
    (nfahclones : option Z) :
  Forall (fun e => modeling_call e = true)
    (modeling_sequence self targetid (Some ids) loopmodel package_for_fah
       nfahclones).
Proof.
  unfold modeling_sequence.
  destruct loopmodel, package_for_fah; now repeat constructor.
Qed.

(** X14: when the constructor raises in a run that has reached the
    modelling sequence, the calls made before the last one have all
    returned, the exception is the one the last call raised when it was
    made after them, that call is one of the sequence, and no later call
    of the sequence is attempted.  Nothing is said of the state a raising
    call leaves behind. *)
Theorem failing_call_is_last (E : Collaborators) (self self' : QuickModel)
    (w w1 w2 : World E) (ev1 evs : list Event) (x : exn) :
  resolve E self w = (Ok self', w1, ev1) ->
  truthy (templateids self') = true ->
  __init__ E self w = (Raise x, w2, evs) ->
  exists before e wb,
    evs = (ev1 ++ before ++ [e])%list
    /\ modeling_call e = true
    /\ for_each E (call E) before w1 = (Ok tt, wb, before)
    /\ exec E e (project E wb) = Raise x
    /\ prefix_of (before ++ [e])
         (modeling_sequence self' (targetid self') (templateids self')
            (loopmodel self') (package_for_fah self') (nfahclones self')).
Proof.
  intros Hres Hsome Hrun.
  destruct (__init___models E self self' w w1 ev1 Hres Hsome)
    as (r & w3 & ev2 & Hcalls & Hinit).
  rewrite Hinit in Hrun.
  destruct r as [[]|y]; [discriminate|].
  injection Hrun as -> -> <-.
  destruct (calls_raise_last E _ _ _ _ _ Hcalls)
    as (before & e & wb & -> & Hbefore & Hraise).
  destruct (calls_in_order E _ _ _ _ _ Hcalls) as (Hpre & _ & _).
  exists before, e, wb.
  split; [reflexivity|].
  split; [|split; [exact Hbefore|split; [exact Hraise|exact Hpre]]].
  destruct (templateids self') as [ids|] eqn:Hids; [|discriminate].
  pose proof (modeling_sequence_calls self' (targetid self') ids
                (loopmodel self') (package_for_fah self') (nfahclones self'))
    as Hall.
  rewrite Forall_forall in Hall. apply Hall.
  apply (prefix_of_In _ _ _ Hpre). apply in_or_app. right. now left.
Qed.

(** Clustering fails: the run stops there, after alignment and building. *)
Lemma failing_call_is_last_witness :
  exists before e wb,
    [ensembler.align_targets_and_templates (Some "ABL1") (Some ["T1_A"]);
     ensembler.build_models (Some "ABL1") (Some ["T1_A"]);
     ensembler.cluster_models (Some "ABL1")]
    = ([] ++ before ++ [e])%list
    /\ modeling_call e = true
    /\ for_each Cases.clustering_fails (call Cases.clustering_fails) before
         (Build_World Cases.clustering_fails Mock.dir0 [])
       = (Ok tt, wb, before)
    /\ exec Cases.clustering_fails e (project Cases.clustering_fails wb)
       = Raise (Other "clustering failed")
    /\ prefix_of (before ++ [e])
         (modeling_sequence Mock.with_templateids (Some "ABL1") (Some ["T1_A"])
            false true None).
Proof.
  assert (Hres : resolve Cases.clustering_fails Mock.with_templateids
                   (Build_World Cases.clustering_fails Mock.dir0 [])
                 = (Ok Mock.with_templateids,
                    Build_World Cases.clustering_fails Mock.dir0 [], []))
    by (vm_compute; reflexivity).
  assert (Hrun : __init__ Cases.clustering_fails Mock.with_templateids
                   (Build_World Cases.clustering_fails Mock.dir0 [])
                 = (Raise (Other "clustering failed"),
                    Build_World Cases.clustering_fails Mock.dir0 [],
                    [ensembler.align_targets_and_templates (Some "ABL1")
                       (Some ["T1_A"]);
                     ensembler.build_models (Some "ABL1") (Some ["T1_A"]);
                     ensembler.cluster_models (Some "ABL1")]))
    by (vm_compute; reflexivity).
  exact (failing_call_is_last Cases.clustering_fails Mock.with_templateids
           Mock.with_templateids
           (Build_World Cases.clustering_fails Mock.dir0 [])
           (Build_World Cases.clustering_fails Mock.dir0 [])
           (Build_World Cases.clustering_fails Mock.dir0 [])
           [] _ (Other "clustering failed") Hres eq_refl Hrun).
Defined.

(** ** The object that is constructed *)

Lemma resolve_targetid_result (E : Collaborators) (self : QuickModel) :
  returns E (fun self1 =>
               targetid self1 <> None
               /\ (truthy (targetid self) = true ->
                   targetid self1 = targetid self))
    (resolve_targetid E self).
Proof.
  unfold resolve_targetid.
  destruct (truthy (targetid self)) eqn:Htid; cbn [negb].
  - apply returns_ret. split; [|reflexivity].
    destruct (targetid self); [discriminate|discriminate Htid].
  - destruct (orb _ _); [apply returns_raise|].
    eapply returns_bind; [apply returns_any|intros _ _].
    eapply returns_bind; [apply returns_any|intros targets _].
    eapply returns_bind; [apply returns_any|intros first _].
    apply returns_ret. split; [discriminate|discriminate].
Qed.

Lemma resolve_templateids_result (E : Collaborators) (self : QuickModel)
    (existing_templates : bool) :
  returns E (fun self' =>
               templateids self' <> None /\ targetid self' = targetid self)
    (resolve_templateids E self existing_templates).
Proof.
  unfold resolve_templateids.
  destruct (truthy (templateids self)) eqn:Hids.
  { destruct (negb existing_templates); [apply returns_raise|].
    apply returns_ret. split; [|reflexivity].
    destruct (templateids self); [discriminate|discriminate Hids]. }
  destruct (truthy (pdbids self)).
  { eapply returns_bind; [apply returns_any|intros _ _].
    eapply returns_bind; [apply returns_any|intros l _].
    apply returns_ret. split; [discriminate|reflexivity]. }
  destruct (truthy (template_uniprot_query self)).
  { eapply returns_bind; [apply returns_any|intros _ _].
    eapply returns_bind; [apply returns_any|intros _ _].
    eapply returns_bind; [apply returns_any|intros l _].
    apply returns_ret. split; [discriminate|reflexivity]. }
  destruct (negb existing_templates); [apply returns_raise|].
  eapply returns_bind; [apply returns_any|intros _ _].
  eapply returns_bind; [apply returns_any|intros l _].
  apply returns_ret. split; [discriminate|reflexivity].
Qed.

(** X15: an object that is constructed has every field as it was given,
    except [targetid] and [templateids]; its [targetid] is never [None],
    and is the one given when that was not empty; its [templateids] is
    never [None] (it may be the empty list). *)
Theorem constructed_object (E : Collaborators) (self self' : QuickModel)
    (w w' : World E) (evs : list Event) :
  __init__ E self w = (Ok self', w', evs) ->
  same_options self self'
  /\ targetid self' <> None
  /\ templateids self' <> None
  /\ (truthy (targetid self) = true -> targetid self' = targetid self).
Proof.
  intros Hrun.
  assert (Hres : exists w1 ev1, resolve E self w = (Ok self', w1, ev1)).
  { destruct (__init___cases E self w)
      as [(e & w1 & ev1 & Hres & Hinit)
         |[(self1 & w1 & ev1 & Hres & Hnone & Hinit)
          |(self1 & w1 & ev1 & r2 & w2 & ev2 & Hres & Hsome & Hcalls & Hinit)]];
      rewrite Hinit in Hrun.
    - discriminate.
    - injection Hrun as <- <- <-. now exists w1, ev1.
    - destruct r2; [|discriminate].
      injection Hrun as <- <- <-. now exists w1, ev1. }
  destruct Hres as (w1 & ev1 & Hres).
  split; [exact (resolve_same_options E self w _ _ _ Hres)|].
  revert Hres. generalize w, self', w1, ev1.
  change (returns E (fun s => targetid s <> None /\ templateids s <> None
                              /\ (truthy (targetid self) = true ->
                                  targetid s = targetid self))
            (resolve E self)).
  unfold resolve.
  eapply returns_bind; [apply returns_any|intros _ _].
  eapply returns_bind; [apply returns_any|intros _ _].
  eapply returns_bind; [apply resolve_targetid_result|].
  intros self1 [Hsome Hgiven].
  eapply returns_bind; [apply returns_any|intros ex _].
  intros w2 s w3 ev3 Hrun3.
  destruct (resolve_templateids_result E self1 ex _ _ _ _ Hrun3) as [Hids Htid].
  split; [congruence|]. split; [exact Hids|].
  intros Ht. rewrite Htid. now apply Hgiven.
Qed.

(** The target is discovered: the object carries its id, and the template
    ids that were given. *)
Lemma constructed_object_witness :
  same_options Mock.empty_targetid
    (set_targetid Mock.empty_targetid (Some "ABL1_HUMAN_D0"))
  /\ targetid (set_targetid Mock.empty_targetid (Some "ABL1_HUMAN_D0")) <> None
  /\ templateids (set_targetid Mock.empty_targetid (Some "ABL1_HUMAN_D0")) <> None
  /\ (truthy (targetid Mock.empty_targetid) = true ->
      targetid (set_targetid Mock.empty_targetid (Some "ABL1_HUMAN_D0"))
      = targetid Mock.empty_targetid).
Proof.
  assert (Hrun : exists evs,
            __init__ Mock.collaborators Mock.empty_targetid
              (Mock.world Mock.dir_with_target [])
            = (Ok (set_targetid Mock.empty_targetid (Some "ABL1_HUMAN_D0")),
               Mock.world Mock.dir_with_target [], evs))
    by (eexists; vm_compute; reflexivity).
  destruct Hrun as (evs & Hrun).
  exact (constructed_object Mock.collaborators Mock.empty_targetid _ _ _ _ Hrun).
Defined.
